(** * An interactive command-line program with typewriter effect

    Shallow embedding of [script.py] and verification of its session loop.

    Python values are modelled as follows.
    - [str] is [string]; a character is a code point below 256.
    - The terminal is a trace of [event]s, in the order the program
      performs them.
    - Exceptions are results: [shlex.split] returns a [ValueError] or the
      tokens, [argparse.parse_args] a [SystemExit] report or a [Namespace].
    - Standard input is a list of [stdin_item]s; reading past its end raises
      [EOFError]. *)

From Stdlib Require Import String Ascii List Bool NArith ZArith Lia.
From Stdlib Require Import Floats.PrimFloat.
Import ListNotations.
Local Open Scope string_scope.
Local Open Scope list_scope.

(** ** Python [str] methods used by the program *)

Definition nl : string := String "010"%char "".

Definition code (c : ascii) : N := N_of_ascii c.

Definition between (lo hi : N) (c : ascii) : bool :=
  (N.leb lo (code c) && N.leb (code c) hi)%bool.

(** [str.isspace] on one character: TAB..CR, FS..US, SPACE, NEL, NBSP. *)
Definition isspace (c : ascii) : bool :=
  (between 9 13 c || between 28 32 c || N.eqb (code c) 133
   || N.eqb (code c) 160)%bool.

Fixpoint lstrip (s : string) : string :=
  match s with
  | "" => ""
  | String c rest => if isspace c then lstrip rest else s
  end.

Fixpoint rstrip (s : string) : string :=
  match s with
  | "" => ""
  | String c rest =>
      match rstrip rest with
      | "" => if isspace c then "" else String c ""
      | kept => String c kept
      end
  end.

Definition strip (s : string) : string := rstrip (lstrip s).

(** [str.lower] on one character: A..Z and the capital letters of Latin-1
    (all of U+00C0..U+00DE but the multiplication sign) move up by 32. *)
Definition lower_char (c : ascii) : ascii :=
  if (between 65 90 c || (between 192 222 c && negb (N.eqb (code c) 215)))%bool
  then ascii_of_N (code c + 32)
  else c.

Fixpoint lower (s : string) : string :=
  match s with
  | "" => ""
  | String c rest => String (lower_char c) (lower rest)
  end.

Definition startswith (s pre : string) : bool := String.prefix pre s.

(** Truth value of a [str]: only the empty string is false. *)
Definition nonempty (s : string) : bool :=
  match s with "" => false | _ => true end.

Definition mem_char (c : ascii) (chars : string) : bool :=
  existsb (Ascii.eqb c) (list_ascii_of_string chars).

(** ** [shlex.split(s)]: POSIX mode, [whitespace_split], no commenters *)

Module shlex.

Definition whitespace : string :=
  String " " (String "009" (String "013" (String "010" ""))).
Definition quotes : string := String "'" (String "034" "").
Definition escape : string := String "\" "".
Definition escapedquotes : string := String "034" "".

(** [self.state] while characters remain: [' '], ['a'], an opening quote,
    or the escape character. *)
Inductive state :=
| st_space
| st_word
| st_quote (q : ascii)
| st_escape (e : ascii).

Inductive ValueError := No_closing_quotation | No_escaped_character.

Definition str (e : ValueError) : string :=
  match e with
  | No_closing_quotation => "No closing quotation"
  | No_escaped_character => "No escaped character"
  end.

(** The lexer between two characters: [read_token]'s locals and the
    instance attributes it updates. [escapedstate] is only read in the
    escape state, where it is ['a'] ([None] here) or the quote the escape
    was met in. *)
Record lexer := {
  st : state;
  escapedstate : option ascii;
  quoted : bool;
  token : string
}.

Definition fresh (s : state) : lexer :=
  {| st := s; escapedstate := None; quoted := false; token := "" |}.

Definition push (c : ascii) (t : string) : string := t ++ String c "".

(** One turn of [read_token]'s loop on a character that was read.
    [inl lx] continues the token, [inr tok] is a [break]: the token is
    returned and the next call starts in state [' '] with fresh locals. *)
Definition on_char (lx : lexer) (c : ascii) : lexer + string :=
  match st lx with
  | st_space =>
      if mem_char c whitespace then
        if (nonempty (token lx) || quoted lx)%bool
        then inr (token lx)
        else inl lx
      else if mem_char c escape then
        inl {| st := st_escape c; escapedstate := None;
               quoted := quoted lx; token := token lx |}
      else if mem_char c quotes then
        inl {| st := st_quote c; escapedstate := escapedstate lx;
               quoted := quoted lx; token := token lx |}
      else
        inl {| st := st_word; escapedstate := escapedstate lx;
               quoted := quoted lx; token := String c "" |}
  | st_quote q =>
      if Ascii.eqb c q then
        inl {| st := st_word; escapedstate := escapedstate lx;
               quoted := true; token := token lx |}
      else if (mem_char c escape && mem_char q escapedquotes)%bool then
        inl {| st := st_escape c; escapedstate := Some q;
               quoted := true; token := token lx |}
      else
        inl {| st := st_quote q; escapedstate := escapedstate lx;
               quoted := true; token := push c (token lx) |}
  | st_escape e =>
      let kept :=
        match escapedstate lx with
        | Some q =>
            if (negb (Ascii.eqb c e) && negb (Ascii.eqb c q))%bool
            then push e (token lx) else token lx
        | None => token lx
        end in
      inl {| st := match escapedstate lx with
                   | Some q => st_quote q
                   | None => st_word
                   end;
             escapedstate := escapedstate lx;
             quoted := quoted lx; token := push c kept |}
  | st_word =>
      if mem_char c whitespace then
        if (nonempty (token lx) || quoted lx)%bool
        then inr (token lx)
        else inl {| st := st_space; escapedstate := escapedstate lx;
                    quoted := quoted lx; token := token lx |}
      else if mem_char c quotes then
        inl {| st := st_quote c; escapedstate := escapedstate lx;
               quoted := quoted lx; token := token lx |}
      else if mem_char c escape then
        inl {| st := st_escape c; escapedstate := None;
               quoted := quoted lx; token := token lx |}
      else
        inl {| st := st_word; escapedstate := escapedstate lx;
               quoted := quoted lx; token := push c (token lx) |}
  end.

(** [read_token] when [read(1)] returns [''].  [Some tok] is a token,
    [None] the end-of-file result that stops the iteration; after a token
    the next call finds [self.state] [None] and returns end-of-file. *)
Definition on_eof (lx : lexer) : ValueError + option string :=
  match st lx with
  | st_quote _ => inl No_closing_quotation
  | st_escape _ => inl No_escaped_character
  | _ =>
      if (negb (quoted lx) && negb (nonempty (token lx)))%bool
      then inr None else inr (Some (token lx))
  end.

(** [list(lex)]: tokens are read until [read_token] returns [None]. *)
Fixpoint tokens (input : string) (lx : lexer) : ValueError + list string :=
  match input with
  | "" =>
      match on_eof lx with
      | inl e => inl e
      | inr None => inr []
      | inr (Some tok) => inr [tok]
      end
  | String c rest =>
      match on_char lx c with
      | inl lx' => tokens rest lx'
      | inr tok =>
          match tokens rest (fresh st_space) with
          | inl e => inl e
          | inr more => inr (tok :: more)
          end
      end
  end.

Definition split (s : string) : ValueError + list string :=
  tokens s (fresh st_space).

End shlex.


(** ** [argparse]: the parser built by [create_parser], after CPython 3.11

    Three optionals and no positional: [-h/--help] and [-v/--version] are
    [store_true], [-p/--prompt] is [store] with one argument; [add_help] is
    off, abbreviations are allowed, the prefix character is [-]. *)

Module argparse.

(** What [_get_values] returns for [-p/--prompt]: the argument string, or
    the empty list when that string was [--] and has been removed. *)
Inductive value := Str (s : string) | EmptyList.

Record Namespace := {
  help : bool;
  version : bool;
  prompt : option value
}.

Definition defaults : Namespace :=
  {| help := false; version := false; prompt := None |}.

Inductive action := help_action | version_action | prompt_action.

(** [parser._option_string_actions], in insertion order. *)
Definition option_string_actions : list (string * action) :=
  [ ("-h", help_action); ("--help", help_action);
    ("-v", version_action); ("--version", version_action);
    ("-p", prompt_action); ("--prompt", prompt_action) ].

Definition lookup (option_string : string) : option action :=
  option_map snd
    (find (fun entry => String.eqb (fst entry) option_string)
          option_string_actions).

(** The message of [parser.error], before formatting. *)
Inductive error :=
| unrecognized_arguments (argv : list string)
| ambiguous_option (option : string) (matches : list string)
| expected_one_argument (a : action)
| ignored_explicit_argument (a : action) (explicit_arg : string).

(** An option tuple: the action ([None] for an unknown option), the option
    string and the explicit argument. *)
Definition option_tuple : Type := option action * string * option string.

(** [s.split('=', 1)] when ['=' in s]. *)
Fixpoint split_eq (s : string) : option (string * string) :=
  match s with
  | "" => None
  | String c rest =>
      if Ascii.eqb c "=" then Some ("", rest)
      else match split_eq rest with
           | Some (before, after) => Some (String c before, after)
           | None => None
           end
  end.

Definition is_digit (c : ascii) : bool := between 48 57 c.

(** [$]: the end of the string, or just before a final newline. *)
Definition at_end (s : string) : bool := (String.eqb s "" || String.eqb s nl)%bool.

Fixpoint digits_star (k : string -> bool) (s : string) : bool :=
  (k s || match s with
          | String c rest => is_digit c && digits_star k rest
          | "" => false
          end)%bool.

Definition digits_plus (k : string -> bool) (s : string) : bool :=
  match s with
  | String c rest => (is_digit c && digits_star k rest)%bool
  | "" => false
  end.

(** [_negative_number_matcher]: [^-\d+$|^-\d*\.\d+$]. *)
Definition negative_number (s : string) : bool :=
  match s with
  | String "-" rest =>
      (digits_plus at_end rest
       || digits_star (fun t => match t with
                                | String "." u => digits_plus at_end u
                                | _ => false
                                end) rest)%bool
  | _ => false
  end.

Definition contains_space (s : string) : bool := mem_char " " s.

Definition _get_option_tuples (option_string : string) : list option_tuple :=
  match option_string with
  | String "-" (String "-" _) =>
      let '(option_prefix, explicit_arg) :=
        match split_eq option_string with
        | Some (before, after) => (before, Some after)
        | None => (option_string, None)
        end in
      map (fun entry => (Some (snd entry), fst entry, explicit_arg))
          (filter (fun entry => startswith (fst entry) option_prefix)
                  option_string_actions)
  | String "-" (String c1 short_explicit_arg) =>
      let short_option_prefix := String "-" (String c1 "") in
      flat_map
        (fun entry =>
           if String.eqb (fst entry) short_option_prefix
           then [(Some (snd entry), fst entry, Some short_explicit_arg)]
           else if startswith (fst entry) option_string
           then [(Some (snd entry), fst entry, None)]
           else [])
        option_string_actions
  | _ => []
  end.

(** [inr None] is a positional, [inr (Some t)] an optional. *)
Definition _parse_optional (arg_string : string)
  : error + option option_tuple :=
  match arg_string with
  | "" => inr None
  | String c0 tail =>
      if negb (Ascii.eqb c0 "-") then inr None
      else match lookup arg_string with
      | Some a => inr (Some (Some a, arg_string, None))
      | None =>
      match tail with
      | "" => inr None
      | _ =>
      let by_eq :=
        match split_eq arg_string with
        | Some (option_string, explicit_arg) =>
            match lookup option_string with
            | Some a => Some (Some a, option_string, Some explicit_arg)
            | None => None
            end
        | None => None
        end in
      match by_eq with
      | Some t => inr (Some t)
      | None =>
      match _get_option_tuples arg_string with
      | (_ :: _ :: _) as option_tuples =>
          inl (ambiguous_option arg_string
                 (map (fun t => snd (fst t)) option_tuples))
      | [t] => inr (Some t)
      | [] =>
          if negative_number arg_string then inr None
          else if contains_space arg_string then inr None
          else inr (Some (None, arg_string, None))
      end end end end
  end.

(** One letter of [arg_strings_pattern], with what it stands for. *)
Inductive part :=
| O (t : option_tuple)
| A
| dash.

Fixpoint pattern_parts (arg_strings : list string)
  : error + list (string * part) :=
  match arg_strings with
  | [] => inr []
  | arg_string :: rest =>
      if String.eqb arg_string "--"
      then inr ((arg_string, dash) :: map (fun s => (s, A)) rest)
      else match _parse_optional arg_string with
           | inl e => inl e
           | inr t =>
               match pattern_parts rest with
               | inl e => inl e
               | inr parts =>
                   inr ((arg_string, match t with
                                     | Some t => O t
                                     | None => A
                                     end) :: parts)
               end
           end
  end.

(** [_match_argument(action, 'A')]: the number of arguments an explicit
    argument can fill. *)
Definition explicit_arg_count (a : action) : nat :=
  match a with prompt_action => 1 | _ => 0 end.

Definition single_dash (option_string : string) : bool :=
  match option_string with
  | String _ (String c1 _) => negb (Ascii.eqb c1 "-")
  | _ => false
  end.

(** [_get_values] then the action's [__call__]. *)
Definition take_action (ns : Namespace) (a : action) (args : list string)
  : Namespace :=
  match a with
  | help_action =>
      {| help := true; version := version ns; prompt := prompt ns |}
  | version_action =>
      {| help := help ns; version := true; prompt := prompt ns |}
  | prompt_action =>
      {| help := help ns; version := version ns;
         prompt := Some match args with
                        | [s] => if String.eqb s "--" then EmptyList else Str s
                        | _ => EmptyList
                        end |}
  end.

(** The [while True] of [consume_optional] once an explicit argument is
    there: [inr (tuples, next)] are the action tuples found and, when the
    last letter of a cluster is left without explicit argument, that
    option, which is then matched against the following strings. *)
Fixpoint explicit_loop (a : action) (option_string explicit_arg : string)
  : error + (list (action * list string) * option action) :=
  match explicit_arg_count a, explicit_arg with
  | 0, String c rest =>
      if single_dash option_string then
        match lookup (String "-" (String c "")) with
        | Some a' =>
            match rest with
            | "" => inr ([(a, [])], Some a')
            | _ =>
                match explicit_loop a' (String "-" (String c "")) rest with
                | inl e => inl e
                | inr (tuples, next) => inr ((a, []) :: tuples, next)
                end
            end
        | None => inl (ignored_explicit_argument a explicit_arg)
        end
      else inl (ignored_explicit_argument a explicit_arg)
  | 0, "" => inl (ignored_explicit_argument a explicit_arg)
  | _, _ => inr ([(a, [explicit_arg])], None)
  end.

(** The main loop of [_parse_known_args]; with no positional action,
    every string that is not an option or an option's argument is an
    extra. *)
Fixpoint consume (parts : list (string * part)) (ns : Namespace)
  (extras : list string) : error + (Namespace * list string) :=
  let following (a : action) (rest : list (string * part)) ns :=
    match a, rest with
    | prompt_action, (s, A) :: rest' =>
        consume rest' (take_action ns a [s]) extras
    | prompt_action, _ => inl (expected_one_argument a)
    | _, _ => consume rest (take_action ns a []) extras
    end in
  match parts with
  | [] => inr (ns, extras)
  | (s, O (None, _, _)) :: rest => consume rest ns (extras ++ [s])
  | (s, O (Some a, option_string, Some explicit_arg)) :: rest =>
      match explicit_loop a option_string explicit_arg with
      | inl e => inl e
      | inr (tuples, next) =>
          let ns' := fold_left (fun n t => take_action n (fst t) (snd t))
                               tuples ns in
          match next with
          | None => consume rest ns' extras
          | Some a' => following a' rest ns'
          end
      end
  | (s, O (Some a, _, None)) :: rest => following a rest ns
  | (s, _) :: rest => consume rest ns (extras ++ [s])
  end.

Definition parse_known_args (args : list string)
  : error + (Namespace * list string) :=
  match pattern_parts args with
  | inl e => inl e
  | inr parts => consume parts defaults []
  end.

(** [inl e]: [parser.error] was called, which prints the usage and the
    message to [stderr] and raises [SystemExit(2)]. *)
Definition parse_args (args : list string) : error + Namespace :=
  match parse_known_args args with
  | inl e => inl e
  | inr (ns, []) => inr ns
  | inr (_, argv) => inl (unrecognized_arguments argv)
  end.

End argparse.


(** ** The terminal *)

Inductive event :=
| stdout_write (s : string)
| stdout_flush
| sleep (seconds : float)
| input_prompt (s : string)
| stderr_usage_error (e : argparse.error).

(** [print(s)] *)
Definition print (s : string) : list event := [stdout_write (s ++ nl)].

(** Python's [0.1], the binary64 number nearest to one tenth. *)
Definition default_delay : float := 0x1.999999999999ap-4%float.

(** ** [class InteractiveCLI]

    The [parser] attribute is the parser of [Module argparse] and never
    changes; a method returns the updated object, when it updates it, and
    the events it performs. *)

Record InteractiveCLI := {
  prompt : string;
  version : string;
  running : bool
}.

Definition __init__ (prompt version : string) : InteractiveCLI :=
  {| prompt := prompt; version := version; running := false |}.

Definition set_prompt (new : string) (self : InteractiveCLI) : InteractiveCLI :=
  {| prompt := new; version := version self; running := running self |}.

Definition set_running (b : bool) (self : InteractiveCLI) : InteractiveCLI :=
  {| prompt := prompt self; version := version self; running := b |}.

(** The delay is one that [time.sleep] accepts (not negative, not too
    large), as the default, the only one the program passes, is. *)
Definition typewriter_effect (text : string) (delay : float) : list event :=
  flat_map (fun char => [stdout_write (String char ""); stdout_flush; sleep delay])
           (list_ascii_of_string text)
  ++ print "".

Definition esc : string := String "027"%char "".

Definition echo_input (user_input : string) : list event :=
  print (esc ++ "[3m" ++ esc ++ "[90mUser: " ++ user_input ++ esc ++ "[0m").

Definition show_version (self : InteractiveCLI) : list event :=
  typewriter_effect ("Interactive CLI Version " ++ version self) default_delay.

Definition help_text : string :=
  nl ++
  "Available commands:" ++ nl ++
  "  help                  - Show this help message" ++ nl ++
  "  version               - Show program version" ++ nl ++
  "  exit/quit             - Exit the program" ++ nl ++
  "  python script.py [options] - Execute as command line args" ++ nl ++
  "Options:" ++ nl ++
  "  -h, --help           - Show help" ++ nl ++
  "  -v, --version        - Show version" ++ nl ++
  "  -p PROMPT, --prompt PROMPT - Change prompt temporarily" ++ nl.

Definition show_help : list event := typewriter_effect help_text default_delay.

Definition prompt_changed (old_prompt new_prompt : string) : string :=
  "Prompt changed from '" ++ old_prompt ++ "' to '" ++ new_prompt ++ "'".

(** The body of the [try] once the arguments are parsed. *)
Definition dispatch (self : InteractiveCLI) (args : argparse.Namespace)
  : InteractiveCLI * list event :=
  if argparse.help args then (self, show_help)
  else if argparse.version args then (self, show_version self)
  else match argparse.prompt args with
       | Some (argparse.Str new) =>
           if nonempty new then
             let old_prompt := prompt self in
             let self := set_prompt new self in
             (self, typewriter_effect (prompt_changed old_prompt (prompt self))
                                      default_delay)
           else (self, [])
       | _ => (self, [])
       end.

Definition handle_cli_args (self : InteractiveCLI) (args_str : string)
  : InteractiveCLI * list event :=
  match shlex.split args_str with
  | inl e =>
      (* except Exception as e *)
      (self, typewriter_effect ("Error parsing arguments: " ++ shlex.str e)
                               default_delay)
  | inr tokens =>
      match argparse.parse_args (skipn 2 tokens) with
      | inl e =>
          (* except SystemExit: pass *)
          (self, [stderr_usage_error e])
      | inr args => dispatch self args
      end
  end.

Definition process_input (user_input : string) : string :=
  "System: You said '" ++ user_input ++ "'".

(** What one call of [input(self.prompt)] does after showing the prompt. *)
Inductive input_result :=
| returns (text : string)
| KeyboardInterrupt
| EOFError.

Definition one_of (s : string) (choices : list string) : bool :=
  existsb (String.eqb s) choices.

(** One turn of the [while] loop of [start]. *)
Definition iteration (self : InteractiveCLI) (r : input_result)
  : InteractiveCLI * list event :=
  let shown := [input_prompt (prompt self)] in
  match r with
  | returns text =>
      let user_input := strip text in
      if negb (nonempty user_input) then (self, shown)
      else
        let echoed := shown ++ echo_input user_input in
        if startswith user_input "python script.py" then
          let (self, out) := handle_cli_args self user_input in
          (self, echoed ++ out)
        else if one_of (lower user_input) ["exit"; "quit"] then
          (set_running false self,
           echoed ++ typewriter_effect "Goodbye!" default_delay)
        else if String.eqb (lower user_input) "version" then
          (self, echoed ++ show_version self)
        else if String.eqb (lower user_input) "help" then
          (self, echoed ++ show_help)
        else
          let response := process_input user_input in
          (self, echoed ++ typewriter_effect response default_delay)
  | KeyboardInterrupt =>
      (self,
       shown ++ typewriter_effect
                  (nl ++ "Use 'exit' or 'quit' to end the session.")
                  default_delay)
  | EOFError =>
      (set_running false self,
       shown ++ typewriter_effect (nl ++ "Goodbye!") default_delay)
  end.

(** Standard input: the lines typed and the interrupts sent while [input]
    waits; the stream is closed after the last item. *)
Inductive stdin_item :=
| line (text : string)
| interrupt.

Definition read (item : stdin_item) : input_result :=
  match item with
  | line text => returns text
  | interrupt => KeyboardInterrupt
  end.

(** [while self.running:]. On the closed stream [input] raises [EOFError],
    whose handler clears [running], so that turn is the last. *)
Fixpoint while_running (self : InteractiveCLI) (stdin : list stdin_item)
  : InteractiveCLI * list event :=
  if running self then
    match stdin with
    | [] => iteration self EOFError
    | item :: rest =>
        let (self, out) := iteration self (read item) in
        let (self, out') := while_running self rest in
        (self, out ++ out')
    end
  else (self, []).

Definition banner (self : InteractiveCLI) : list event :=
  typewriter_effect ("Interactive CLI (Version " ++ version self ++ ")")
                    default_delay
  ++ typewriter_effect "Type 'help' for available commands." default_delay.

Definition start (self : InteractiveCLI) (stdin : list stdin_item)
  : InteractiveCLI * list event :=
  let self := set_running true self in
  let (self', out) := while_running self stdin in
  (self', banner self ++ out).

(** [if args.prompt: cli.prompt = args.prompt] *)
Definition configure (cli : InteractiveCLI) (args : argparse.Namespace)
  : InteractiveCLI :=
  match argparse.prompt args with
  | Some (argparse.Str new) => if nonempty new then set_prompt new cli else cli
  | _ => cli
  end.

Definition usage : list event :=
  print "Usage: python script.py [options]"
  ++ print "Options:"
  ++ print "  -h, --help     show this help message and exit"
  ++ print "  -v, --version  show program's version number and exit"
  ++ print "  -p PROMPT, --prompt PROMPT"
  ++ print "                set the command prompt (default: '> ')".

(** [main()] on [sys.argv[1:]] and standard input: the events of the
    process and its exit status. *)
Definition main (argv : list string) (stdin : list stdin_item)
  : list event * Z :=
  let cli := __init__ "> " "1.0.0" in
  match argparse.parse_args argv with
  | inl e => ([stderr_usage_error e], 2%Z)
  | inr args =>
      if argparse.help args then (usage, 0%Z)
      else if argparse.version args then (show_version cli, 0%Z)
      else
        let cli := configure cli args in
        (snd (start cli stdin), 0%Z)
  end.


(** ** Vocabulary of the specification *)

Definition double_quote : string := String "034" "".

Definition invocation_prefix : string := "python script.py".

(** A quoted invocation: a trimmed line that starts with the prefix. *)
Definition quoted_invocation (user_input : string) : Prop :=
  startswith user_input invocation_prefix = true.

(** A line that is empty or made of whitespace only. *)
Definition whitespace_only (text : string) : bool :=
  forallb isspace (list_ascii_of_string text).

Definition builtins : list string := ["exit"; "quit"; "version"; "help"].

(** The turns of the loop on the items typed so far, the stream still
    open: what [while_running] does before it meets the end of input. *)
Fixpoint iterations (self : InteractiveCLI) (items : list stdin_item)
  : InteractiveCLI * list event :=
  match items with
  | [] => (self, [])
  | item :: rest =>
      if running self then
        let (self, out) := iteration self (read item) in
        let (self, out') := iterations self rest in
        (self, out ++ out')
      else (self, [])
  end.

(** Some text went through the typewriter effect in this output. *)
Definition typewritten (out : list event) : Prop :=
  exists text before after,
    out = before ++ typewriter_effect text default_delay ++ after.

(** The output is paced, a pause after a character: the mark of the
    typewriter effect on a text that is not empty. *)
Definition paced (out : list event) : bool :=
  existsb (fun e => match e with sleep _ => true | _ => false end) out.

Definition shows_a_prompt (out : list event) : bool :=
  existsb (fun e => match e with input_prompt _ => true | _ => false end) out.

(** ** The claims of the specification that the code does not meet, as
       they are stated *)

(** Malformed flags: an error message goes through the typewriter effect
    and the session is unchanged. *)
Definition malformed_flags_are_typewritten
  (self : InteractiveCLI) (user_input : string) : Prop :=
  forall tokens e,
    quoted_invocation user_input ->
    shlex.split user_input = inr tokens ->
    argparse.parse_args (skipn 2 tokens) = inl e ->
    fst (handle_cli_args self user_input) = self /\
    typewritten (snd (handle_cli_args self user_input)).

(** Startup help or version: direct output, no loop, exit code 0. *)
Definition startup_flags_print_directly
  (argv : list string) (stdin : list stdin_item) : Prop :=
  forall args,
    argparse.parse_args argv = inr args ->
    argparse.help args = true \/ argparse.version args = true ->
    paced (fst (main argv stdin)) = false /\
    shows_a_prompt (fst (main argv stdin)) = false /\
    snd (main argv stdin) = 0%Z.



(** Every quoted invocation is tokenized and its tokens after the first
    two are given to the flag parser. *)
Definition every_invocation_reaches_parser
  (self : InteractiveCLI) (user_input : string) : Prop :=
  quoted_invocation user_input ->
  exists tokens,
    shlex.split user_input = inr tokens /\
    handle_cli_args self user_input =
      match argparse.parse_args (skipn 2 tokens) with
      | inl e => (self, [stderr_usage_error e])
      | inr args => dispatch self args
      end.

(** The lexer is inside a token that starts with [word]. *)
Definition building (word : string) (lx : shlex.lexer) : Prop :=
  shlex.st lx <> shlex.st_space /\ startswith (shlex.token lx) word = true.

(** ** Vocabulary of the properties read off the code *)

(** What the events leave on standard output. *)
Fixpoint stdout_text (out : list event) : string :=
  match out with
  | [] => ""
  | stdout_write s :: rest => s ++ stdout_text rest
  | _ :: rest => stdout_text rest
  end.

(** The prompts shown by [input], in order. *)
Fixpoint prompts (out : list event) : list string :=
  match out with
  | [] => []
  | input_prompt s :: rest => s :: prompts rest
  | _ :: rest => prompts rest
  end.

(** A character that [shlex] takes as it is outside quotes: no
    whitespace, no quote, no escape. *)
Definition plain_char (c : ascii) : bool :=
  negb (mem_char c shlex.whitespace || mem_char c shlex.quotes
        || mem_char c shlex.escape).

(** A word of plain characters, not empty. *)
Definition plain (word : string) : bool :=
  (nonempty word && forallb plain_char (list_ascii_of_string word))%bool.

Definition no_single_quote (s : string) : bool :=
  negb (mem_char "'" s).

(** Text that can stand between double quotes as it is: no double quote
    and no backslash. *)
Definition no_double_quote_or_backslash (s : string) : bool :=
  negb (mem_char "034" s || mem_char "\" s).

Definition starts_with_dash (s : string) : bool :=
  match s with String c _ => Ascii.eqb c "-" | "" => false end.

(** The two farewells of the program. *)
Definition farewell (text : string) : Prop :=
  text = "Goodbye!" \/ text = (nl ++ "Goodbye!")%string.

(** * Proofs *)

(** Whatever the text, the typewriter effect ends with a line break. *)
Lemma typewriter_effect_ends (text : string) (delay : float) :
  In (stdout_write nl) (typewriter_effect text delay).
Proof. unfold typewriter_effect. apply in_or_app. right. now left. Qed.

Lemma typewriter_effect_no_prompt (text : string) (delay : float) :
  prompts (typewriter_effect text delay) = [].
Proof.
  unfold typewriter_effect. induction text as [|c rest IH]; [reflexivity|].
  exact IH.
Qed.

Lemma typewriter_effect_cons (c : ascii) (rest : string) (delay : float) :
  typewriter_effect (String c rest) delay
  = stdout_write (String c "") :: stdout_flush :: sleep delay
    :: typewriter_effect rest delay.
Proof. reflexivity. Qed.

(** X1. With the delay the program uses, the typewriter effect prints a
    text one character at a time: the character at index [i] is written
    alone by the event [3i], flushed by the event [3i+1] and followed by
    a pause of the delay at [3i+2]; after the last character comes the
    line break, and nothing else; standard output has received the text
    and a line break. *)
Theorem typewriter_effect_prints_text (text : string) :
  let out := typewriter_effect text default_delay in
  length out = 3 * String.length text + 1 /\
  (forall i c,
     String.get i text = Some c ->
     nth_error out (3 * i) = Some (stdout_write (String c "")) /\
     nth_error out (3 * i + 1) = Some stdout_flush /\
     nth_error out (3 * i + 2) = Some (sleep default_delay)) /\
  nth_error out (3 * String.length text) = Some (stdout_write nl) /\
  stdout_text out = (text ++ nl)%string.
Proof.
  induction text as [|a rest (IHlength & IHchars & IHlast & IHtext)].
  - split; [reflexivity|].
    split; [intros i c Hget; destruct i; discriminate|]. now split.
  - cbv zeta in *. rewrite typewriter_effect_cons.
    split; [cbn [length String.length]; lia|]. split; [|split].
    + intros [|i] c Hget.
      * injection Hget as ->. repeat split.
      * cbn [String.get] in Hget. destruct (IHchars i c Hget) as (Hw & Hf & Hs).
        replace (3 * S i) with (S (S (S (3 * i)))) by lia.
        cbn [Nat.add nth_error]. now repeat split.
    + cbn [String.length].
      replace (3 * S (String.length rest))
        with (S (S (S (3 * String.length rest)))) by lia.
      exact IHlast.
    + cbn [stdout_text append]. now rewrite IHtext.
Qed.

Lemma typewriter_effect_prints_text_witness :
  nth_error (typewriter_effect "hi" default_delay) 3 = Some (stdout_write "i") /\
  nth_error (typewriter_effect "hi" default_delay) 4 = Some stdout_flush /\
  nth_error (typewriter_effect "hi" default_delay) 5 = Some (sleep default_delay).
Proof.
  destruct (typewriter_effect_prints_text "hi") as (_ & Hchars & _).
  exact (Hchars 1 "i"%char eq_refl).
Defined.

#[local] Opaque typewriter_effect.

Ltac case_ifs :=
  repeat match goal with
         | |- context [if ?b then _ else _] => destruct b
         end.

(** ** The models on the inputs of the specification *)

Example split_quotes :
  shlex.split ("python script.py -p " ++ double_quote ++ "NEW> " ++ double_quote
               ++ " 'a b'\ c")
  = inr ["python"; "script.py"; "-p"; "NEW> "; "a b c"].
Proof. reflexivity. Qed.

Example split_unbalanced :
  shlex.split "python script.py -p 'x" = inl shlex.No_closing_quotation.
Proof. reflexivity. Qed.

Example parse_help_version :
  argparse.parse_args ["-h"; "-v"]
  = inr {| argparse.help := true; argparse.version := true;
           argparse.prompt := None |}.
Proof. reflexivity. Qed.

Example parse_cluster_and_abbreviation :
  argparse.parse_args ["-vp"; "a"; "--pro=b"]
  = inr {| argparse.help := false; argparse.version := true;
           argparse.prompt := Some (argparse.Str "b") |}.
Proof. reflexivity. Qed.

Example parse_unknown_flag :
  argparse.parse_args ["--bogus"]
  = inl (argparse.unrecognized_arguments ["--bogus"]).
Proof. reflexivity. Qed.

Example parse_missing_value :
  argparse.parse_args ["-p"]
  = inl (argparse.expected_one_argument argparse.prompt_action).
Proof. reflexivity. Qed.

Example parse_ambiguous :
  argparse.parse_args ["--=x"]
  = inl (argparse.ambiguous_option "--=x" ["--help"; "--version"; "--prompt"]).
Proof. reflexivity. Qed.

Example parse_double_dash_value :
  argparse.parse_args ["-p--"]
  = inr {| argparse.help := false; argparse.version := false;
           argparse.prompt := Some argparse.EmptyList |}.
Proof. reflexivity. Qed.

Example unbalanced_quote_is_typewritten :
  handle_cli_args (__init__ "> " "1.0.0") "python script.py -p 'x"
  = (__init__ "> " "1.0.0",
     typewriter_effect "Error parsing arguments: No closing quotation"
                       default_delay).
Proof. reflexivity. Qed.

Example missing_value_is_swallowed :
  handle_cli_args (__init__ "> " "1.0.0") "python script.py -p"
  = (__init__ "> " "1.0.0",
     [stderr_usage_error
        (argparse.expected_one_argument argparse.prompt_action)]).
Proof. reflexivity. Qed.

Example startup_prompt :
  fst (iterations (set_running true
                     (configure (__init__ "> " "1.0.0")
                        {| argparse.help := false; argparse.version := false;
                           argparse.prompt := Some (argparse.Str "** ") |}))
                  [line "Quit"; line "more"])
  = {| prompt := "** "; version := "1.0.0"; running := false |}.
Proof. reflexivity. Qed.

Example exit_stops_reading :
  main ["-p"; "** "] [line "EXIT"; line "more"]
  = (banner (__init__ "> " "1.0.0")
     ++ [input_prompt "** "] ++ echo_input "EXIT"
     ++ typewriter_effect "Goodbye!" default_delay,
     0%Z).
Proof. reflexivity. Qed.

Section Strings.

Lemma nonempty_true (s : string) : s <> "" -> nonempty s = true.
Proof. destruct s; [congruence | reflexivity]. Qed.

Lemma nonempty_false (s : string) : nonempty s = false -> s = "".
Proof. destruct s; [reflexivity | discriminate]. Qed.

Lemma lstrip_whitespace_only (text : string) :
  whitespace_only text = true -> lstrip text = "".
Proof.
  unfold whitespace_only.
  induction text as [|c rest IH]; simpl; [reflexivity|].
  intros H. apply andb_true_iff in H as [Hc Hrest].
  rewrite Hc. now apply IH.
Qed.

Lemma strip_whitespace_only (text : string) :
  whitespace_only text = true -> strip text = "".
Proof.
  intros H. unfold strip. now rewrite lstrip_whitespace_only.
Qed.

Lemma prefix_split (pre s : string) :
  String.prefix pre s = true -> exists rest, s = (pre ++ rest)%string.
Proof.
  revert s. induction pre as [|a pre IH]; intros s H.
  - now exists s.
  - destruct s as [|b s]; simpl in H; [discriminate|].
    destruct (ascii_dec a b) as [->|]; [|discriminate].
    destruct (IH _ H) as [rest ->]. now exists rest.
Qed.

Lemma prefix_append (pre s more : string) :
  String.prefix pre s = true -> String.prefix pre (s ++ more)%string = true.
Proof.
  revert s. induction pre as [|a pre IH]; intros s H.
  - now destruct (s ++ more)%string.
  - destruct s as [|b s]; simpl in H |- *; [discriminate|].
    destruct (ascii_dec a b); [now apply IH | discriminate].
Qed.

Lemma quoted_invocation_nonempty (user_input : string) :
  quoted_invocation user_input -> nonempty user_input = true.
Proof. destruct user_input; [discriminate | reflexivity]. Qed.

End Strings.

Section Loop.

Variable self : InteractiveCLI.

Lemma while_running_step (item : stdin_item) (rest : list stdin_item) :
  running self = true ->
  while_running self (item :: rest) =
    (fst (while_running (fst (iteration self (read item))) rest),
     snd (iteration self (read item))
     ++ snd (while_running (fst (iteration self (read item))) rest)).
Proof.
  intros Hrun. simpl. rewrite Hrun.
  destruct (iteration self (read item)) as [self' out]. simpl.
  now destruct (while_running self' rest).
Qed.

Lemma iteration_EOFError :
  iteration self EOFError =
    (set_running false self,
     [input_prompt (prompt self)]
     ++ typewriter_effect (nl ++ "Goodbye!") default_delay).
Proof. reflexivity. Qed.

End Loop.

(** The loop is its turns on the items typed, then, if still running, the
    turn that meets the end of input. *)
Lemma while_running_iterations (stdin : list stdin_item) :
  forall self,
    while_running self stdin =
      let s := fst (iterations self stdin) in
      let out := snd (iterations self stdin) in
      if running s
      then (fst (iteration s EOFError), out ++ snd (iteration s EOFError))
      else (s, out).
Proof.
  induction stdin as [|item rest IH]; intros self.
  - simpl. destruct (running self) eqn:Hrun; reflexivity.
  - simpl. destruct (running self) eqn:Hrun; simpl; [|now rewrite Hrun].
    destruct (iteration self (read item)) as [self' out].
    rewrite IH.
    destruct (iterations self' rest) as [s out']. simpl.
    destruct (running s); [|reflexivity].
    now rewrite app_assoc.
Qed.

(** ** The session loop *)

(** C5. A line whose trimmed form is not empty, does not start with the
    invocation prefix and is not, in lower case, one of the builtins
    [exit], [quit], [version], [help], is answered, after the echo, by
    exactly [System: You said '<input>'], [<input>] being the trimmed
    line; the session is unchanged. *)
Theorem free_text_response (self : InteractiveCLI) (text : string) :
  let user_input := strip text in
  user_input <> "" ->
  startswith user_input invocation_prefix = false ->
  one_of (lower user_input) builtins = false ->
  iteration self (returns text) =
    (self,
     [input_prompt (prompt self)]
     ++ echo_input user_input
     ++ typewriter_effect ("System: You said '" ++ user_input ++ "'")
                          default_delay).
Proof.
  intros user_input Hne Hprefix Hbuiltin.
  unfold one_of, builtins in Hbuiltin. simpl existsb in Hbuiltin.
  repeat (apply orb_false_iff in Hbuiltin as [? Hbuiltin]).
  unfold iteration. fold user_input.
  rewrite (nonempty_true _ Hne). cbn [negb].
  unfold invocation_prefix in Hprefix. rewrite Hprefix.
  unfold one_of. simpl existsb.
  repeat match goal with H : String.eqb _ _ = false |- _ => rewrite H; clear H end.
  cbn [orb]. unfold process_input. now rewrite <- app_assoc.
Qed.

Lemma free_text_response_witness :
  iteration (__init__ "> " "1.0.0") (returns "  hello world ") =
    (__init__ "> " "1.0.0",
     [input_prompt "> "]
     ++ echo_input "hello world"
     ++ typewriter_effect "System: You said 'hello world'" default_delay).
Proof.
  apply (free_text_response (__init__ "> " "1.0.0") "  hello world ").
  - discriminate.
  - reflexivity.
  - reflexivity.
Defined.

(** C7. A line that is empty or made of whitespace only is not echoed and
    not answered: the turn shows the prompt and nothing else, the session
    (prompt, running, version) is unchanged, and the loop goes on with the
    next turn. *)
Theorem blank_line_is_skipped
  (self : InteractiveCLI) (text : string) (rest : list stdin_item) :
  whitespace_only text = true ->
  iteration self (returns text) = (self, [input_prompt (prompt self)]) /\
  (running self = true ->
   while_running self (line text :: rest) =
     (fst (while_running self rest),
      input_prompt (prompt self) :: snd (while_running self rest))).
Proof.
  intros Hblank.
  assert (Hturn : iteration self (returns text)
                  = (self, [input_prompt (prompt self)])).
  { unfold iteration. now rewrite (strip_whitespace_only _ Hblank). }
  split; [exact Hturn|].
  intros Hrun. rewrite (while_running_step self (line text) rest Hrun).
  simpl read. now rewrite Hturn.
Qed.

Lemma blank_line_is_skipped_witness :
  iteration (set_running true (__init__ "> " "1.0.0")) (returns "   ") =
    (set_running true (__init__ "> " "1.0.0"), [input_prompt "> "]) /\
  while_running (set_running true (__init__ "> " "1.0.0"))
                [line "   "; line "exit"] =
    (fst (while_running (set_running true (__init__ "> " "1.0.0"))
                        [line "exit"]),
     input_prompt "> "
     :: snd (while_running (set_running true (__init__ "> " "1.0.0"))
                           [line "exit"])).
Proof.
  destruct (blank_line_is_skipped (set_running true (__init__ "> " "1.0.0"))
                                  "   " [line "exit"] eq_refl)
    as [Hturn Hloop].
  split; [exact Hturn | exact (Hloop eq_refl)].
Defined.

(** C8. When the input stream ends while the loop is still running (no
    [exit] or [quit] before), the last turn prints the farewell, [running]
    becomes false, the loop ends there, and the process exits with
    status 0. *)
Theorem end_of_input_ends_session
  (self : InteractiveCLI) (stdin : list stdin_item) :
  let s := fst (iterations (set_running true self) stdin) in
  let out := snd (iterations (set_running true self) stdin) in
  running s = true ->
  start self stdin =
    (set_running false s,
     banner self ++ out ++ [input_prompt (prompt s)]
     ++ typewriter_effect (nl ++ "Goodbye!") default_delay) /\
  forall argv args,
    argparse.parse_args argv = inr args ->
    argparse.help args = false ->
    argparse.version args = false ->
    configure (__init__ "> " "1.0.0") args = self ->
    main argv stdin = (snd (start self stdin), 0%Z).
Proof.
  intros s out Hrun. split.
  - unfold start. rewrite while_running_iterations. cbv zeta.
    fold s out. rewrite Hrun. now rewrite iteration_EOFError.
  - intros argv args Hparse Hhelp Hversion Hself.
    unfold main. now rewrite Hparse, Hhelp, Hversion, Hself.
Qed.

Lemma end_of_input_ends_session_witness :
  start (__init__ "> " "1.0.0") [line "hi"] =
    (set_running false
       (fst (iterations (set_running true (__init__ "> " "1.0.0"))
                        [line "hi"])),
     banner (__init__ "> " "1.0.0")
     ++ snd (iterations (set_running true (__init__ "> " "1.0.0"))
                        [line "hi"])
     ++ [input_prompt "> "]
     ++ typewriter_effect (nl ++ "Goodbye!") default_delay) /\
  main [] [line "hi"] = (snd (start (__init__ "> " "1.0.0") [line "hi"]), 0%Z).
Proof.
  destruct (end_of_input_ends_session (__init__ "> " "1.0.0") [line "hi"])
    as [Hstart Hmain]; [reflexivity|].
  split; [exact Hstart|].
  apply (Hmain [] argparse.defaults); reflexivity.
Defined.

(** C9. An interrupt while [input] waits does not end the session: the
    hint to use [exit] or [quit] is printed, the session is unchanged,
    [running] stays true, and the loop goes on with the next turn. *)
Theorem interrupt_keeps_session
  (self : InteractiveCLI) (rest : list stdin_item) :
  running self = true ->
  let hint :=
    [input_prompt (prompt self)]
    ++ typewriter_effect (nl ++ "Use 'exit' or 'quit' to end the session.")
                         default_delay in
  iteration self KeyboardInterrupt = (self, hint) /\
  running (fst (iteration self KeyboardInterrupt)) = true /\
  while_running self (interrupt :: rest) =
    (fst (while_running self rest), hint ++ snd (while_running self rest)).
Proof.
  intros Hrun hint. split; [reflexivity|]. split; [exact Hrun|].
  now rewrite (while_running_step self interrupt rest Hrun).
Qed.

Lemma interrupt_keeps_session_witness :
  running (fst (iteration (set_running true (__init__ "> " "1.0.0"))
                          KeyboardInterrupt)) = true /\
  while_running (set_running true (__init__ "> " "1.0.0"))
                [interrupt; line "hi"] =
    (fst (while_running (set_running true (__init__ "> " "1.0.0")) [line "hi"]),
     ([input_prompt "> "]
      ++ typewriter_effect (nl ++ "Use 'exit' or 'quit' to end the session.")
                           default_delay)
     ++ snd (while_running (set_running true (__init__ "> " "1.0.0"))
                           [line "hi"])).
Proof.
  destruct (interrupt_keeps_session (set_running true (__init__ "> " "1.0.0"))
                                    [line "hi"] eq_refl)
    as (_ & Hrun & Hloop).
  split; [exact Hrun | exact Hloop].
Defined.

(** ** Tokens of a quoted invocation *)

Lemma startswith_push (word : string) (c : ascii) (t : string) :
  startswith t word = true -> startswith (shlex.push c t) word = true.
Proof. apply prefix_append. Qed.

Ltac in_token :=
  split; cbn [shlex.st shlex.token]; try discriminate;
  auto using startswith_push.

Section Lexer.

Variable word : string.
Hypothesis word_nonempty : nonempty word = true.

Lemma building_nonempty (lx : shlex.lexer) :
  building word lx -> nonempty (shlex.token lx) = true.
Proof.
  intros [_ H]. destruct word; [discriminate|].
  now destruct (shlex.token lx).
Qed.

Lemma on_char_building (lx : shlex.lexer) (c : ascii) :
  building word lx ->
  match shlex.on_char lx c with
  | inl lx' => building word lx'
  | inr tok => startswith tok word = true
  end.
Proof.
  intros Hlx. pose proof (building_nonempty lx Hlx) as Hne.
  destruct Hlx as [Hst Htok]. unfold shlex.on_char.
  destruct (shlex.st lx) as [| |q|e]; [congruence| | |].
  - rewrite Hne. cbn [orb]. case_ifs; try assumption; in_token.
  - case_ifs; in_token.
  - destruct (shlex.escapedstate lx) as [q|]; case_ifs; in_token.
Qed.

Lemma tokens_building (input : string) :
  forall lx,
    building word lx ->
    match shlex.tokens input lx with
    | inl _ => True
    | inr toks =>
        exists tok more, toks = tok :: more /\ startswith tok word = true
    end.
Proof.
  induction input as [|c rest IH]; intros lx Hlx.
  - pose proof (building_nonempty lx Hlx) as Hne.
    destruct Hlx as [Hst Htok]. simpl. unfold shlex.on_eof.
    destruct (shlex.st lx); try congruence; try exact I.
    rewrite Hne, andb_false_r. now exists (shlex.token lx), [].
  - simpl. pose proof (on_char_building lx c Hlx) as Hstep.
    destruct (shlex.on_char lx c) as [lx'|tok]; [now apply IH|].
    destruct (shlex.tokens rest (shlex.fresh shlex.st_space)) as [e|more];
      [exact I|]. now exists tok, more.
Qed.

End Lexer.

(** Tokenizing a line that starts with the invocation prefix either fails
    or yields [python], a token that starts with [script.py], and the
    tokens after them. *)
Lemma split_invocation (rest : string) :
  match shlex.split (invocation_prefix ++ rest) with
  | inl _ => True
  | inr toks =>
      exists script flags,
        toks = "python" :: script :: flags /\
        startswith script "script.py" = true
  end.
Proof.
  unfold shlex.split, invocation_prefix. cbn.
  match goal with
  | |- context [shlex.tokens rest ?lx] =>
      pose proof (tokens_building "script.py" eq_refl rest lx) as H
  end.
  match type of H with
  | ?P -> _ => assert (Hlx : P) by (split; [discriminate | reflexivity])
  end.
  specialize (H Hlx).
  match goal with
  | |- context [shlex.tokens rest ?lx] => destruct (shlex.tokens rest lx) as [e|toks]
  end; [exact I|].
  destruct H as (script & flags & -> & Hscript). now exists script, flags.
Qed.

(** ** Flags typed in the session *)

Section Handler.

Variable self : InteractiveCLI.
Variable user_input : string.
Variable tokens : list string.
Hypothesis tokenized : shlex.split user_input = inr tokens.

Lemma handle_parsed (args : argparse.Namespace) :
  argparse.parse_args (skipn 2 tokens) = inr args ->
  handle_cli_args self user_input = dispatch self args.
Proof.
  intros Hparse. unfold handle_cli_args. now rewrite tokenized, Hparse.
Qed.

Lemma handle_exit (e : argparse.error) :
  argparse.parse_args (skipn 2 tokens) = inl e ->
  handle_cli_args self user_input = (self, [stderr_usage_error e]).
Proof.
  intros Hparse. unfold handle_cli_args. now rewrite tokenized, Hparse.
Qed.

End Handler.

Lemma iteration_quoted (self : InteractiveCLI) (text : string) :
  quoted_invocation (strip text) ->
  iteration self (returns text) =
    (fst (handle_cli_args self (strip text)),
     [input_prompt (prompt self)] ++ echo_input (strip text)
     ++ snd (handle_cli_args self (strip text))).
Proof.
  intros Hquoted. unfold iteration.
  rewrite (quoted_invocation_nonempty _ Hquoted). cbn [negb].
  unfold quoted_invocation, invocation_prefix in Hquoted. rewrite Hquoted.
  destruct (handle_cli_args self (strip text)). simpl fst. simpl snd.
  now rewrite <- app_assoc.
Qed.

(** C1, as the code has it. When the flags of a quoted invocation are
    malformed, the parser has written its usage and error message to the
    standard error stream and raised [SystemExit]; the handler catches it
    and prints nothing more, so no message goes through the typewriter
    effect; the session (prompt, running, version) is unchanged and the
    loop goes on with the next turn. *)
Theorem malformed_flags_are_swallowed
  (self : InteractiveCLI) (text : string) (rest : list stdin_item)
  (tokens : list string) (e : argparse.error) :
  let user_input := strip text in
  quoted_invocation user_input ->
  shlex.split user_input = inr tokens ->
  argparse.parse_args (skipn 2 tokens) = inl e ->
  handle_cli_args self user_input = (self, [stderr_usage_error e]) /\
  ~ typewritten (snd (handle_cli_args self user_input)) /\
  iteration self (returns text) =
    (self,
     [input_prompt (prompt self)] ++ echo_input user_input
     ++ [stderr_usage_error e]) /\
  (running self = true ->
   while_running self (line text :: rest) =
     (fst (while_running self rest),
      ([input_prompt (prompt self)] ++ echo_input user_input
       ++ [stderr_usage_error e])
      ++ snd (while_running self rest))).
Proof.
  intros user_input Hquoted Htokens Hparse.
  pose proof (handle_exit self user_input tokens Htokens e Hparse) as Hhandle.
  assert (Hturn : iteration self (returns text) =
                  (self, [input_prompt (prompt self)] ++ echo_input user_input
                         ++ [stderr_usage_error e])).
  { rewrite (iteration_quoted self text Hquoted). fold user_input.
    now rewrite Hhandle. }
  repeat split; try assumption.
  - rewrite Hhandle. intros (text' & before & after & Heq). simpl in Heq.
    pose proof (typewriter_effect_ends text' default_delay) as Hin.
    assert (Hout : In (stdout_write nl)
                      (before ++ typewriter_effect text' default_delay ++ after))
      by (apply in_or_app; right; apply in_or_app; now left).
    rewrite <- Heq in Hout. destruct Hout as [Hout|[]]. discriminate.
  - intros Hrun. rewrite (while_running_step self (line text) rest Hrun).
    simpl read. now rewrite Hturn.
Qed.

Lemma malformed_flags_are_swallowed_witness :
  handle_cli_args (set_running true (__init__ "> " "1.0.0"))
                  "python script.py --bogus" =
    (set_running true (__init__ "> " "1.0.0"),
     [stderr_usage_error (argparse.unrecognized_arguments ["--bogus"])]) /\
  while_running (set_running true (__init__ "> " "1.0.0"))
                [line "python script.py --bogus"; line "hi"] =
    (fst (while_running (set_running true (__init__ "> " "1.0.0")) [line "hi"]),
     ([input_prompt "> "] ++ echo_input "python script.py --bogus"
      ++ [stderr_usage_error (argparse.unrecognized_arguments ["--bogus"])])
     ++ snd (while_running (set_running true (__init__ "> " "1.0.0"))
                           [line "hi"])).
Proof.
  destruct (malformed_flags_are_swallowed
              (set_running true (__init__ "> " "1.0.0"))
              "python script.py --bogus" [line "hi"]
              ["python"; "script.py"; "--bogus"]
              (argparse.unrecognized_arguments ["--bogus"])
              eq_refl eq_refl eq_refl)
    as (Hhandle & _ & _ & Hloop).
  split; [exact Hhandle | exact (Hloop eq_refl)].
Defined.

(** C1, as stated, fails on [python script.py --bogus]: nothing goes
    through the typewriter effect. *)
Lemma bogus_flag_is_not_typewritten :
  ~ malformed_flags_are_typewritten (__init__ "> " "1.0.0")
      "python script.py --bogus".
Proof.
  intros H.
  destruct (H ["python"; "script.py"; "--bogus"]
              (argparse.unrecognized_arguments ["--bogus"])
              eq_refl eq_refl eq_refl)
    as [_ (text & before & after & Heq)].
  change (snd (handle_cli_args (__init__ "> " "1.0.0")
                               "python script.py --bogus"))
    with [stderr_usage_error (argparse.unrecognized_arguments ["--bogus"])]
    in Heq.
  assert (Hout : In (stdout_write nl)
                    (before ++ typewriter_effect text default_delay ++ after)).
  { apply in_or_app; right; apply in_or_app; left.
    apply typewriter_effect_ends. }
  rewrite <- Heq in Hout. destruct Hout as [Hout|[]]. discriminate.
Qed.







(** C10. When a quoted invocation parses and sets none of help, version
    and prompt, as the bare prefix does, the handler prints nothing and
    the session (prompt, running, version) is unchanged. *)
Theorem no_flag_no_output
  (self : InteractiveCLI) (user_input : string)
  (tokens : list string) (args : argparse.Namespace) :
  quoted_invocation user_input ->
  shlex.split user_input = inr tokens ->
  argparse.parse_args (skipn 2 tokens) = inr args ->
  argparse.help args = false ->
  argparse.version args = false ->
  argparse.prompt args = None ->
  handle_cli_args self user_input = (self, []).
Proof.
  intros _ Htokens Hparse Hhelp Hversion Hprompt.
  rewrite (handle_parsed self user_input tokens Htokens args Hparse).
  unfold dispatch. now rewrite Hhelp, Hversion, Hprompt.
Qed.

Lemma no_flag_no_output_witness :
  handle_cli_args (__init__ "> " "1.0.0") "python script.py" =
    (__init__ "> " "1.0.0", []).
Proof.
  apply (no_flag_no_output (__init__ "> " "1.0.0") "python script.py"
           ["python"; "script.py"] argparse.defaults);
    reflexivity.
Defined.

(** ** Flags given to the process *)

Lemma usage_is_direct : paced usage = false /\ shows_a_prompt usage = false.
Proof. split; reflexivity. Qed.

(** C2, as the code has it. At startup, with the help flag set the usage
    summary is printed directly, without the typewriter effect; otherwise,
    with the version flag set, the version text goes through the
    typewriter effect; in both cases the process exits with code 0 without
    entering the loop, whatever is on standard input. *)
Theorem startup_help_and_version
  (argv : list string) (args : argparse.Namespace) (stdin : list stdin_item) :
  argparse.parse_args argv = inr args ->
  (argparse.help args = true ->
   main argv stdin = (usage, 0%Z) /\ paced usage = false) /\
  (argparse.help args = false -> argparse.version args = true ->
   main argv stdin =
     (typewriter_effect "Interactive CLI Version 1.0.0" default_delay, 0%Z)) /\
  (argparse.help args = true \/ argparse.version args = true ->
   shows_a_prompt (fst (main argv stdin)) = false /\
   snd (main argv stdin) = 0%Z).
Proof.
  intros Hparse. unfold main. rewrite Hparse. split; [|split].
  - intros ->. now split.
  - now intros -> ->.
  - destruct (argparse.help args); [now split|].
    intros [H | ->]; [discriminate | now split].
Qed.

Lemma startup_help_and_version_witness :
  main ["--help"] [line "hi"] = (usage, 0%Z) /\
  main ["-v"] [line "hi"] =
    (typewriter_effect "Interactive CLI Version 1.0.0" default_delay, 0%Z).
Proof.
  split.
  - apply (startup_help_and_version ["--help"]
             {| argparse.help := true; argparse.version := false;
                argparse.prompt := None |} [line "hi"]);
      reflexivity.
  - apply (startup_help_and_version ["-v"]
             {| argparse.help := false; argparse.version := true;
                argparse.prompt := None |} [line "hi"]);
      reflexivity.
Defined.

(** C2, as stated, fails on the startup argument [-v]: the version text is
    paced by the typewriter effect. *)
Lemma startup_version_is_typewritten :
  ~ startup_flags_print_directly ["-v"] [].
Proof.
  intros H.
  destruct (H {| argparse.help := false; argparse.version := true;
                 argparse.prompt := None |} eq_refl (or_intror eq_refl))
    as [Hpaced _].
  vm_compute in Hpaced. discriminate.
Qed.

(** * Further properties of the code *)

(** ** Builtin commands *)

Lemma lower_length (s : string) : String.length (lower s) = String.length s.
Proof. induction s as [|c rest IH]; simpl; congruence. Qed.

Lemma prefix_length (pre s : string) :
  String.prefix pre s = true -> String.length pre <= String.length s.
Proof.
  intros H. apply prefix_split in H as [rest ->].
  induction pre as [|c pre IH]; simpl; lia.
Qed.

Lemma lower_eqb_length (u b : string) :
  String.eqb (lower u) b = true -> String.length u = String.length b.
Proof.
  intros H. apply String.eqb_eq in H. now rewrite <- H, lower_length.
Qed.

Lemma short_not_invocation (u : string) :
  String.length u < 16 -> startswith u "python script.py" = false.
Proof.
  intros Hshort. destruct (startswith u "python script.py") eqn:Hprefix;
    [|reflexivity].
  apply prefix_length in Hprefix. simpl in Hprefix. lia.
Qed.

Lemma length_nonempty (u : string) :
  0 < String.length u -> nonempty u = true.
Proof. destruct u; simpl; [lia | reflexivity]. Qed.

(** X2. A line that is, once trimmed and in lower case, [exit] or [quit]
    is echoed, answered by the farewell, and stops the session: [running]
    becomes false and nothing that follows on standard input is read. *)
Theorem exit_ends_session
  (self : InteractiveCLI) (text : string) (rest : list stdin_item) :
  one_of (lower (strip text)) ["exit"; "quit"] = true ->
  let last_turn :=
    (set_running false self,
     [input_prompt (prompt self)] ++ echo_input (strip text)
     ++ typewriter_effect "Goodbye!" default_delay) in
  iteration self (returns text) = last_turn /\
  (running self = true -> while_running self (line text :: rest) = last_turn).
Proof.
  intros Hexit last_turn.
  assert (Hlen : String.length (strip text) = 4).
  { unfold one_of in Hexit. simpl in Hexit.
    apply orb_true_iff in Hexit as [H|H];
      [|apply orb_true_iff in H as [H|H]; [|discriminate]];
      now apply lower_eqb_length in H. }
  assert (Hturn : iteration self (returns text) = last_turn).
  { unfold iteration.
    rewrite (length_nonempty (strip text)) by lia. cbn [negb].
    rewrite (short_not_invocation (strip text)) by lia.
    rewrite Hexit. unfold last_turn. now rewrite <- app_assoc. }
  split; [exact Hturn|].
  intros Hrun. rewrite (while_running_step self (line text) rest Hrun).
  simpl read. rewrite Hturn. unfold last_turn.
  cbn [fst snd]. destruct rest; simpl; now rewrite app_nil_r.
Qed.

Lemma exit_ends_session_witness :
  while_running (set_running true (__init__ "> " "1.0.0"))
                [line " QuIt "; line "more"] =
    (__init__ "> " "1.0.0",
     [input_prompt "> "] ++ echo_input "QuIt"
     ++ typewriter_effect "Goodbye!" default_delay).
Proof.
  destruct (exit_ends_session (set_running true (__init__ "> " "1.0.0"))
                              " QuIt " [line "more"] eq_refl)
    as [_ Hloop].
  exact (Hloop eq_refl).
Defined.

(** X3. A line that is, once trimmed and in lower case, [version] or
    [help] is echoed and answered by the version text, which names the
    session's version, or by the help text; the session is unchanged. *)
Theorem version_and_help_builtins (self : InteractiveCLI) (text : string) :
  one_of (lower (strip text)) ["version"; "help"] = true ->
  iteration self (returns text) =
    (self,
     [input_prompt (prompt self)] ++ echo_input (strip text)
     ++ typewriter_effect
          (if String.eqb (lower (strip text)) "version"
           then "Interactive CLI Version " ++ version self
           else help_text)
          default_delay).
Proof.
  intros Hbuiltin. unfold one_of in Hbuiltin. simpl in Hbuiltin.
  assert (Hlen : 0 < String.length (strip text) < 16).
  { apply orb_true_iff in Hbuiltin as [H|H];
      [|apply orb_true_iff in H as [H|H]; [|discriminate]];
      apply lower_eqb_length in H; rewrite H; simpl; lia. }
  unfold iteration.
  rewrite (length_nonempty (strip text)) by lia. cbn [negb].
  rewrite (short_not_invocation (strip text)) by lia.
  apply orb_true_iff in Hbuiltin as [H|H];
    [|apply orb_true_iff in H as [H|H]; [|discriminate]];
    apply String.eqb_eq in H; rewrite H.
  - change (one_of "version" ["exit"; "quit"]) with false.
    change ("version" =? "version")%string with true. cbv iota.
    unfold show_version. now rewrite <- app_assoc.
  - change (one_of "help" ["exit"; "quit"]) with false.
    change ("help" =? "version")%string with false.
    change ("help" =? "help")%string with true. cbv iota.
    unfold show_help. now rewrite <- app_assoc.
Qed.

Lemma version_and_help_builtins_witness :
  iteration (__init__ "> " "1.0.0") (returns "Version") =
    (__init__ "> " "1.0.0",
     [input_prompt "> "] ++ echo_input "Version"
     ++ typewriter_effect "Interactive CLI Version 1.0.0" default_delay).
Proof.
  apply (version_and_help_builtins (__init__ "> " "1.0.0") "Version").
  reflexivity.
Defined.

(** ** What every turn does *)

Lemma rstrip_empty (s : string) :
  rstrip s = "" -> whitespace_only s = true.
Proof.
  unfold whitespace_only. induction s as [|c rest IH]; [reflexivity|].
  simpl. destruct (rstrip rest); [|discriminate].
  destruct (isspace c); [|discriminate]. intros _. now apply IH.
Qed.

Lemma lstrip_whitespace (s : string) :
  whitespace_only (lstrip s) = true -> whitespace_only s = true.
Proof.
  unfold whitespace_only. induction s as [|c rest IH]; [reflexivity|].
  simpl. destruct (isspace c) eqn:Hc; [exact IH|].
  simpl. now rewrite Hc.
Qed.

Lemma strip_empty (text : string) :
  strip text = "" -> whitespace_only text = true.
Proof. intros H. now apply lstrip_whitespace, rstrip_empty. Qed.

Lemma prompts_app (a b : list event) :
  prompts (a ++ b) = prompts a ++ prompts b.
Proof.
  induction a as [|e a IH]; [reflexivity|].
  destruct e; simpl; now rewrite IH.
Qed.

(** The handler touches neither [running] nor [version], shows no
    prompt, and leaves the prompt as it is or sets one that is not
    empty. *)
Lemma handle_cli_args_frame (self : InteractiveCLI) (args_str : string) :
  running (fst (handle_cli_args self args_str)) = running self /\
  version (fst (handle_cli_args self args_str)) = version self /\
  (prompt (fst (handle_cli_args self args_str)) = prompt self \/
   nonempty (prompt (fst (handle_cli_args self args_str))) = true) /\
  prompts (snd (handle_cli_args self args_str)) = [].
Proof.
  unfold handle_cli_args, dispatch, show_help, show_version.
  destruct (shlex.split args_str) as [e|tokens];
    [|destruct (argparse.parse_args (skipn 2 tokens)) as [e|args];
      [|destruct (argparse.help args), (argparse.version args),
                 (argparse.prompt args) as [[new|]|];
        try destruct (nonempty new) eqn:Hnew]];
    cbn [fst snd set_prompt running version prompt];
    rewrite ?typewriter_effect_no_prompt; auto.
Qed.

(** One turn shows the prompt once, first; it keeps the version and a
    prompt that is not empty. *)
Lemma iteration_frame (self : InteractiveCLI) (r : input_result) :
  (exists out, snd (iteration self r) = input_prompt (prompt self) :: out /\
               prompts out = []) /\
  version (fst (iteration self r)) = version self /\
  (nonempty (prompt self) = true ->
   nonempty (prompt (fst (iteration self r))) = true).
Proof.
  unfold iteration, show_help, show_version, echo_input, print.
  destruct r as [text| |].
  - destruct (nonempty (strip text)); cbn [negb];
      [|split; [now exists []| now split]].
    destruct (startswith (strip text) "python script.py").
    + destruct (handle_cli_args_frame self (strip text))
        as (_ & Hversion & Hprompt & Hout).
      destruct (handle_cli_args self (strip text)) as [self' out].
      cbn [fst snd] in *. split; [|split; [exact Hversion|]].
      * eexists. split; [reflexivity|]. simpl. exact Hout.
      * intros Hne. destruct Hprompt as [->|]; assumption.
    + case_ifs; (split; [|now split]); eexists; (split; [reflexivity|]);
        simpl; apply typewriter_effect_no_prompt.
  - split; [|now split]. eexists. split; [reflexivity|].
    apply typewriter_effect_no_prompt.
  - split; [|now split]. eexists. split; [reflexivity|].
    apply typewriter_effect_no_prompt.
Qed.

(** X4. A line that is not made of whitespace only is always echoed,
    trimmed, right after the prompt and before any answer, whatever the
    line turns out to be. *)
Theorem non_blank_line_is_echoed (self : InteractiveCLI) (text : string) :
  whitespace_only text = false ->
  strip text <> "" /\
  exists answer,
    snd (iteration self (returns text)) =
      [input_prompt (prompt self)] ++ echo_input (strip text) ++ answer.
Proof.
  intros Hblank.
  assert (Hne : strip text <> "").
  { intros Hstrip. apply strip_empty in Hstrip. congruence. }
  split; [exact Hne|]. unfold iteration.
  rewrite (nonempty_true _ Hne). cbn [negb].
  destruct (startswith (strip text) "python script.py").
  - destruct (handle_cli_args self (strip text)) as [self' out].
    exists out. cbn [snd]. now rewrite <- app_assoc.
  - case_ifs; cbn [snd]; eexists; rewrite <- app_assoc; reflexivity.
Qed.

Lemma non_blank_line_is_echoed_witness :
  exists answer,
    snd (iteration (__init__ "> " "1.0.0") (returns " python script.py -x ")) =
      [input_prompt "> "] ++ echo_input "python script.py -x" ++ answer.
Proof.
  apply (non_blank_line_is_echoed (__init__ "> " "1.0.0")
                                  " python script.py -x ").
  reflexivity.
Defined.

(** X5. Whatever is typed after the invocation prefix, well formed or
    not, the handler never stops the session and never changes the
    version: only the prompt can change, and only to a value that is not
    empty. *)
Theorem quoted_invocation_keeps_running
  (self : InteractiveCLI) (args_str : string) :
  running (fst (handle_cli_args self args_str)) = running self /\
  version (fst (handle_cli_args self args_str)) = version self /\
  (fst (handle_cli_args self args_str) = self \/
   exists new, new <> "" /\
               fst (handle_cli_args self args_str) = set_prompt new self).
Proof.
  unfold handle_cli_args, dispatch.
  destruct (shlex.split args_str) as [e|tokens];
    [|destruct (argparse.parse_args (skipn 2 tokens)) as [e|args];
      [|destruct (argparse.help args), (argparse.version args),
                 (argparse.prompt args) as [[new|]|];
        try destruct (nonempty new) eqn:Hnew]];
    cbn [fst snd set_prompt running version prompt]; auto.
  repeat split. right. exists new. split; [|reflexivity].
  intros ->. discriminate.
Qed.

(** ** What every session does *)

Lemma while_running_stopped (self : InteractiveCLI) (stdin : list stdin_item) :
  running self = false -> while_running self stdin = (self, []).
Proof. intros Hrun. destruct stdin; simpl; now rewrite Hrun. Qed.

Lemma while_running_closed (self : InteractiveCLI) :
  running self = true -> while_running self [] = iteration self EOFError.
Proof. intros Hrun. simpl. now rewrite Hrun. Qed.

Lemma while_running_frame (stdin : list stdin_item) :
  forall self,
    version (fst (while_running self stdin)) = version self /\
    (nonempty (prompt self) = true ->
     Forall (fun shown => shown <> "")
            (prompts (snd (while_running self stdin)))).
Proof.
  assert (Hshown : forall s, nonempty s = true -> s <> "")
    by (intros s Hs ->; discriminate).
  induction stdin as [|item rest IH]; intros self;
    (destruct (running self) eqn:Hrun;
     [|rewrite (while_running_stopped self _ Hrun);
       split; [reflexivity | constructor]]).
  - rewrite (while_running_closed self Hrun).
    destruct (iteration_frame self EOFError)
      as ((out & Hout & Hnone) & Hversion & _).
    split; [exact Hversion|]. intros Hne. rewrite Hout. simpl.
    rewrite Hnone. constructor; auto.
  - rewrite (while_running_step self item rest Hrun). cbn [fst snd].
    destruct (iteration_frame self (read item))
      as ((out & Hout & Hnone) & Hversion & Hprompt).
    destruct (IH (fst (iteration self (read item)))) as [Hversion' Hshown'].
    split; [congruence|].
    intros Hne. rewrite Hout, prompts_app. simpl. rewrite Hnone.
    constructor; auto.
Qed.

(** X6. Every prompt a process ever shows is a string that is not
    empty, whatever its arguments and its input: the default is [> ], and
    neither the startup flag nor a quoted invocation installs an empty
    one. *)
Theorem shown_prompts_are_not_empty
  (argv : list string) (stdin : list stdin_item) :
  Forall (fun shown => shown <> "") (prompts (fst (main argv stdin))).
Proof.
  unfold main.
  destruct (argparse.parse_args argv) as [e|args]; [constructor|].
  destruct (argparse.help args); [constructor|].
  destruct (argparse.version args);
    [unfold show_version; cbn [fst];
     rewrite typewriter_effect_no_prompt; constructor|].
  cbn [fst]. unfold start.
  pose proof (while_running_frame stdin
                (set_running true (configure (__init__ "> " "1.0.0") args)))
    as [_ Hshown].
  destruct (while_running _ stdin) as [self' out]. cbn [snd] in *.
  unfold banner. rewrite !prompts_app, !typewriter_effect_no_prompt.
  apply Hshown. unfold configure.
  destruct (argparse.prompt args) as [[new|]|]; try reflexivity.
  destruct (nonempty new) eqn:Hnew; [exact Hnew | reflexivity].
Qed.

Lemma iteration_stops (self : InteractiveCLI) (r : input_result) :
  running self = true ->
  running (fst (iteration self r)) = false ->
  exists before text,
    farewell text /\
    snd (iteration self r) = before ++ typewriter_effect text default_delay.
Proof.
  intros Hrun. unfold iteration. destruct r as [text| |].
  - destruct (nonempty (strip text)); cbn [negb fst]; [|congruence].
    destruct (startswith (strip text) "python script.py").
    + destruct (handle_cli_args_frame self (strip text)) as (Hsame & _).
      destruct (handle_cli_args self (strip text)) as [self' out].
      cbn [fst] in *. congruence.
    + case_ifs; cbn [fst snd]; try congruence. intros _.
      exists ([input_prompt (prompt self)] ++ echo_input (strip text)),
             "Goodbye!".
      split; [now left | reflexivity].
  - cbn [fst]. congruence.
  - intros _. exists [input_prompt (prompt self)], (nl ++ "Goodbye!")%string.
    split; [now right | reflexivity].
Qed.

Lemma while_running_ends (stdin : list stdin_item) :
  forall self,
    running self = true ->
    running (fst (while_running self stdin)) = false /\
    exists before text,
      farewell text /\
      snd (while_running self stdin)
        = before ++ typewriter_effect text default_delay.
Proof.
  induction stdin as [|item rest IH]; intros self Hrun.
  - rewrite (while_running_closed self Hrun). split; [reflexivity|].
    exists [input_prompt (prompt self)], (nl ++ "Goodbye!")%string.
    split; [now right | reflexivity].
  - rewrite (while_running_step self item rest Hrun). cbn [fst snd].
    destruct (running (fst (iteration self (read item)))) eqn:Hrun'.
    + destruct (IH _ Hrun') as (Hend & before & text & Htext & Hout).
      split; [exact Hend|].
      exists (snd (iteration self (read item)) ++ before), text.
      split; [exact Htext|]. now rewrite Hout, app_assoc.
    + destruct (iteration_stops self (read item) Hrun Hrun')
        as (before & text & Htext & Hout).
      rewrite (while_running_stopped _ rest Hrun'). cbn [fst snd].
      split; [exact Hrun'|]. exists before, text.
      split; [exact Htext|]. now rewrite app_nil_r.
Qed.

Lemma iterations_stopped (self : InteractiveCLI) (items : list stdin_item) :
  running self = false -> iterations self items = (self, []).
Proof.
  intros Hrun. destruct items; simpl; [reflexivity | now rewrite Hrun].
Qed.

(** A turn that reads a line or meets an interrupt stops the loop only
    by the farewell of [exit] and [quit]. *)
Lemma iteration_read_stops (self : InteractiveCLI) (item : stdin_item) :
  running self = true ->
  running (fst (iteration self (read item))) = false ->
  exists before,
    snd (iteration self (read item))
    = before ++ typewriter_effect "Goodbye!" default_delay.
Proof.
  intros Hrun. unfold iteration. destruct item as [text|]; cbn [read].
  - destruct (nonempty (strip text)); cbn [negb fst]; [|congruence].
    destruct (startswith (strip text) "python script.py").
    + destruct (handle_cli_args_frame self (strip text)) as (Hsame & _).
      destruct (handle_cli_args self (strip text)) as [self' out].
      cbn [fst] in *. congruence.
    + case_ifs; cbn [fst snd]; try congruence. intros _.
      now exists ([input_prompt (prompt self)] ++ echo_input (strip text)).
  - cbn [fst]. congruence.
Qed.

Lemma iterations_end_with_exit (items : list stdin_item) :
  forall self,
    running self = true ->
    running (fst (iterations self items)) = false ->
    exists before,
      snd (iterations self items)
      = before ++ typewriter_effect "Goodbye!" default_delay.
Proof.
  induction items as [|item rest IH]; intros self Hrun;
    cbn [iterations fst]; [congruence|]. rewrite Hrun.
  pose proof (iteration_read_stops self item Hrun) as Hstop.
  destruct (iteration self (read item)) as [self' out]. cbn [fst snd] in *.
  destruct (running self') eqn:Hrun'.
  - specialize (IH self' Hrun').
    destruct (iterations self' rest) as [self'' out']. cbn [fst snd] in *.
    intros Hend. destruct (IH Hend) as [before ->].
    exists (out ++ before). now rewrite app_assoc.
  - rewrite (iterations_stopped self' rest Hrun'). cbn [fst snd].
    intros _. destruct (Hstop eq_refl) as [before ->].
    exists before. now rewrite app_nil_r.
Qed.

(** X7. When [start] returns, [running] is false and the version is the
    one the session started with; the last output is a farewell through
    the typewriter effect, and which one tells the cause. If a line
    [exit] or [quit] stopped the loop, the output is the banner and the
    turns up to that line, it ends with [Goodbye!], and the state is the
    one that line left. If the input ended first, the output ends with
    the prompt, a line break and [Goodbye!]. The interrupts are those
    that arrive while [input] waits. *)
Theorem session_ends_with_farewell
  (self : InteractiveCLI) (stdin : list stdin_item) :
  let s := fst (iterations (set_running true self) stdin) in
  let out := snd (iterations (set_running true self) stdin) in
  running (fst (start self stdin)) = false /\
  version (fst (start self stdin)) = version self /\
  (running s = false ->
   start self stdin = (s, banner self ++ out) /\
   exists before,
     out = before ++ typewriter_effect "Goodbye!" default_delay) /\
  (running s = true ->
   start self stdin =
     (set_running false s,
      banner self ++ out ++ [input_prompt (prompt s)]
      ++ typewriter_effect (nl ++ "Goodbye!") default_delay)).
Proof.
  intros s out.
  destruct (while_running_ends stdin (set_running true self) eq_refl)
    as (Hend & _).
  destruct (while_running_frame stdin (set_running true self)) as [Hversion _].
  unfold start. rewrite while_running_iterations in *. cbv zeta in *.
  fold s out in Hend, Hversion |- *.
  destruct (running s) eqn:Hs; cbn [fst snd] in *;
    (split; [exact Hend|]); (split; [exact Hversion|]);
    (split; [intros Hstopped | intros Hopen]); try discriminate.
  - now rewrite iteration_EOFError.
  - split; [reflexivity|]. unfold out.
    apply (iterations_end_with_exit stdin (set_running true self) eq_refl Hs).
Qed.

Lemma session_ends_with_farewell_witness :
  start (__init__ "> " "1.0.0") [interrupt; line "Quit"; line "more"] =
    (__init__ "> " "1.0.0",
     banner (__init__ "> " "1.0.0")
     ++ snd (iterations (set_running true (__init__ "> " "1.0.0"))
                        [interrupt; line "Quit"; line "more"])) /\
  start (__init__ "> " "1.0.0") [interrupt; line "hi"] =
    (__init__ "> " "1.0.0",
     banner (__init__ "> " "1.0.0")
     ++ snd (iterations (set_running true (__init__ "> " "1.0.0"))
                        [interrupt; line "hi"])
     ++ [input_prompt "> "]
     ++ typewriter_effect (nl ++ "Goodbye!") default_delay).
Proof.
  destruct (session_ends_with_farewell
              (__init__ "> " "1.0.0") [interrupt; line "Quit"; line "more"])
    as (_ & _ & Hexit & _).
  destruct (session_ends_with_farewell
              (__init__ "> " "1.0.0") [interrupt; line "hi"])
    as (_ & _ & _ & Heof).
  split; [exact (proj1 (Hexit eq_refl)) | exact (Heof eq_refl)].
Defined.

(** The exit status is 2 when the parser rejects the arguments, and then
    nothing is written to standard output and no input is read; it is 0
    in every other case. *)
Lemma exit_status (argv : list string) (stdin : list stdin_item) :
  match argparse.parse_args argv with
  | inl e =>
      snd (main argv stdin) = 2%Z /\
      stdout_text (fst (main argv stdin)) = "" /\
      prompts (fst (main argv stdin)) = []
  | inr _ => snd (main argv stdin) = 0%Z
  end.
Proof.
  unfold main. destruct (argparse.parse_args argv) as [e|args].
  - repeat split.
  - destruct (argparse.help args), (argparse.version args); reflexivity.
Qed.

(** ** How a typed command line becomes flags *)

Lemma string_app_nil_r (s : string) : (s ++ "")%string = s.
Proof. induction s as [|c s IH]; simpl; congruence. Qed.

Lemma string_app_assoc (a b c : string) :
  ((a ++ b) ++ c)%string = (a ++ b ++ c)%string.
Proof. induction a as [|x a IH]; simpl; congruence. Qed.

Lemma push_append (c : ascii) (t v : string) :
  (shlex.push c t ++ v)%string = (t ++ String c v)%string.
Proof. unfold shlex.push. now rewrite string_app_assoc. Qed.

Lemma plain_char_spec (c : ascii) :
  plain_char c = true ->
  mem_char c shlex.whitespace = false /\
  mem_char c shlex.quotes = false /\
  mem_char c shlex.escape = false.
Proof.
  unfold plain_char. intros H. apply negb_true_iff in H.
  apply orb_false_iff in H as [H Hescape].
  apply orb_false_iff in H as [Hspace Hquote]. auto.
Qed.

(** Inside a word, plain characters are added to the token. *)
Lemma tokens_plain (w : string) :
  forall tail lx,
    forallb plain_char (list_ascii_of_string w) = true ->
    shlex.st lx = shlex.st_word ->
    shlex.tokens (w ++ tail) lx =
      shlex.tokens tail
        {| shlex.st := shlex.st_word;
           shlex.escapedstate := shlex.escapedstate lx;
           shlex.quoted := shlex.quoted lx;
           shlex.token := shlex.token lx ++ w |}.
Proof.
  induction w as [|c w IH]; intros tail lx Hplain Hst.
  - destruct lx as [st0 e q t]. simpl in *. subst st0.
    now rewrite string_app_nil_r.
  - simpl in Hplain. apply andb_true_iff in Hplain as [Hc Hw].
    destruct (plain_char_spec c Hc) as (Hspace & Hquote & Hescape).
    cbn [append shlex.tokens]. unfold shlex.on_char at 1.
    rewrite Hst, Hspace, Hquote, Hescape.
    rewrite IH by (assumption || reflexivity).
    cbn [shlex.escapedstate shlex.quoted shlex.token].
    now rewrite push_append.
Qed.

Lemma tokens_plain_end (w : string) (lx : shlex.lexer) :
  forallb plain_char (list_ascii_of_string w) = true ->
  shlex.st lx = shlex.st_word ->
  shlex.tokens w lx =
    shlex.tokens ""
      {| shlex.st := shlex.st_word;
         shlex.escapedstate := shlex.escapedstate lx;
         shlex.quoted := shlex.quoted lx;
         shlex.token := shlex.token lx ++ w |}.
Proof.
  intros Hw Hst. pose proof (tokens_plain w "" lx Hw Hst) as H.
  now rewrite string_app_nil_r in H.
Qed.

Lemma tokens_first_plain (c : ascii) (rest : string) :
  plain_char c = true ->
  shlex.tokens (String c rest) (shlex.fresh shlex.st_space) =
    shlex.tokens rest
      {| shlex.st := shlex.st_word; shlex.escapedstate := None;
         shlex.quoted := false; shlex.token := String c "" |}.
Proof.
  intros Hc. destruct (plain_char_spec c Hc) as (Hspace & Hquote & Hescape).
  cbn [shlex.tokens]. unfold shlex.on_char, shlex.fresh.
  cbn [shlex.st]. now rewrite Hspace, Hquote, Hescape.
Qed.

Lemma tokens_plain_words (words : list string) :
  forallb plain words = true ->
  shlex.tokens (String.concat " " words) (shlex.fresh shlex.st_space)
  = inr words.
Proof.
  induction words as [|w words IH]; [reflexivity|].
  intros Hwords. simpl in Hwords. apply andb_true_iff in Hwords as [Hw Hrest].
  unfold plain in Hw. apply andb_true_iff in Hw as [Hne Hw].
  destruct w as [|c w]; [discriminate|].
  simpl in Hw. apply andb_true_iff in Hw as [Hc Hw].
  destruct words as [|w2 words].
  - cbn [String.concat]. rewrite (tokens_first_plain c w Hc).
    rewrite tokens_plain_end by (assumption || reflexivity). reflexivity.
  - change (String.concat " " (String c w :: w2 :: words))
      with (String c w ++ " " ++ String.concat " " (w2 :: words))%string.
    cbn [append]. rewrite (tokens_first_plain c _ Hc).
    rewrite tokens_plain by (assumption || reflexivity).
    cbn [append shlex.tokens]. unfold shlex.on_char at 1.
    cbn [shlex.st shlex.token shlex.quoted].
    change (mem_char " " shlex.whitespace) with true. cbn [nonempty orb append].
    now rewrite (IH Hrest).
Qed.

(** X8. [shlex.split] undoes a join with single spaces: a command line
    made of words of plain characters (no whitespace, quote or backslash)
    separated by one space is cut into exactly these words. *)
Theorem split_plain_words (words : list string) :
  forallb plain words = true ->
  shlex.split (String.concat " " words) = inr words.
Proof. intros Hwords. unfold shlex.split. now apply tokens_plain_words. Qed.

Lemma split_plain_words_witness :
  shlex.split (String.concat " " ["python"; "script.py"; "-p"; "NEW>"])
  = inr ["python"; "script.py"; "-p"; "NEW>"].
Proof.
  apply (split_plain_words ["python"; "script.py"; "-p"; "NEW>"]).
  reflexivity.
Defined.

(** X9. Flags typed as plain words after [python script.py], one space
    apart, reach the parser as they were typed, and the handler does what
    the parser's answer on them commands. *)
Theorem plain_flags_reach_parser
  (self : InteractiveCLI) (flags : list string) :
  forallb plain flags = true ->
  handle_cli_args self (String.concat " " ("python" :: "script.py" :: flags)) =
    match argparse.parse_args flags with
    | inl e => (self, [stderr_usage_error e])
    | inr args => dispatch self args
    end.
Proof.
  intros Hflags. unfold handle_cli_args.
  assert (Hsplit : shlex.split
                     (String.concat " " ("python" :: "script.py" :: flags))
                   = inr ("python" :: "script.py" :: flags)).
  { unfold shlex.split. apply tokens_plain_words. exact Hflags. }
  now rewrite Hsplit.
Qed.

Lemma plain_flags_reach_parser_witness :
  handle_cli_args (__init__ "> " "1.0.0")
                  (String.concat " " ["python"; "script.py"; "-v"; "-x"]) =
    (__init__ "> " "1.0.0",
     [stderr_usage_error (argparse.unrecognized_arguments ["-x"])]).
Proof.
  apply (plain_flags_reach_parser (__init__ "> " "1.0.0") ["-v"; "-x"]).
  reflexivity.
Defined.

Lemma no_single_quote_cons (c : ascii) (v : string) :
  no_single_quote (String c v) = true ->
  Ascii.eqb c "'" = false /\ no_single_quote v = true.
Proof.
  unfold no_single_quote, mem_char. cbn [list_ascii_of_string existsb].
  intros H. apply negb_true_iff, orb_false_iff in H as [Hc Hv].
  rewrite Ascii.eqb_sym in Hc. split; [exact Hc | now rewrite Hv].
Qed.

Lemma on_char_single_quoted (lx : shlex.lexer) (c : ascii) :
  shlex.st lx = shlex.st_quote "'" ->
  Ascii.eqb c "'" = false ->
  shlex.on_char lx c =
    inl {| shlex.st := shlex.st_quote "'";
           shlex.escapedstate := shlex.escapedstate lx;
           shlex.quoted := true;
           shlex.token := shlex.push c (shlex.token lx) |}.
Proof.
  intros Hst Hc. unfold shlex.on_char. rewrite Hst, Hc.
  change (mem_char "'" shlex.escapedquotes) with false.
  now rewrite andb_false_r.
Qed.

(** Between single quotes every character is taken as it is, up to the
    closing quote; without a closing quote the tokenizer fails. *)
Lemma tokens_single_quoted (v : string) :
  forall lx,
    no_single_quote v = true ->
    shlex.st lx = shlex.st_quote "'" ->
    shlex.tokens (v ++ "'") lx = inr [(shlex.token lx ++ v)%string] /\
    shlex.tokens v lx = inl shlex.No_closing_quotation.
Proof.
  induction v as [|c v IH]; intros lx Hv Hst.
  - cbn [append shlex.tokens]. unfold shlex.on_char, shlex.on_eof.
    rewrite Hst. cbn. now rewrite string_app_nil_r.
  - apply no_single_quote_cons in Hv as [Hc Hv].
    cbn [append shlex.tokens].
    rewrite (on_char_single_quoted lx c Hst Hc).
    match goal with
    | |- context [shlex.tokens v ?lx'] =>
        destruct (IH lx' Hv eq_refl) as [Hclosed Hopen]
    end.
    rewrite Hclosed, Hopen. cbn [shlex.token].
    now rewrite push_append.
Qed.

Lemma not_dash (v : string) :
  starts_with_dash v = false ->
  argparse._parse_optional v = inr None /\ String.eqb v "--" = false.
Proof.
  destruct v as [|c v]; [now split|]. simpl. intros Hc. now rewrite Hc.
Qed.

(** A value that does not start with a dash is taken by [-p] and by
    [--prompt]; alone, it is rejected: the parser has no positional. *)
Lemma parse_value (v : string) :
  starts_with_dash v = false ->
  argparse.parse_args ["-p"; v]
    = inr {| argparse.help := false; argparse.version := false;
             argparse.prompt := Some (argparse.Str v) |} /\
  argparse.parse_args ["--prompt"; v]
    = inr {| argparse.help := false; argparse.version := false;
             argparse.prompt := Some (argparse.Str v) |} /\
  argparse.parse_args [v] = inl (argparse.unrecognized_arguments [v]).
Proof.
  intros Hv. destruct (not_dash v Hv) as [Hpositional Hdashes].
  unfold argparse.parse_args, argparse.parse_known_args.
  cbn [argparse.pattern_parts].
  change (String.eqb "-p" "--") with false.
  change (String.eqb "--prompt" "--") with false.
  change (argparse._parse_optional "-p")
    with (@inr argparse.error _
            (Some (Some argparse.prompt_action, "-p", @None string))).
  change (argparse._parse_optional "--prompt")
    with (@inr argparse.error _
            (Some (Some argparse.prompt_action, "--prompt", @None string))).
  rewrite Hpositional, Hdashes. cbn [argparse.consume argparse.take_action].
  rewrite Hdashes. repeat split.
Qed.

Lemma split_single_quoted (v : string) :
  no_single_quote v = true ->
  shlex.split ("python script.py -p '" ++ v ++ "'")
  = inr ["python"; "script.py"; "-p"; v].
Proof.
  intros Hv. unfold shlex.split. cbn.
  match goal with
  | |- context [shlex.tokens (v ++ "'") ?lx] =>
      destruct (tokens_single_quoted v lx Hv eq_refl) as [-> _]
  end.
  reflexivity.
Qed.

Lemma split_unclosed (v : string) :
  no_single_quote v = true ->
  shlex.split ("python script.py '" ++ v) = inl shlex.No_closing_quotation.
Proof.
  intros Hv. unfold shlex.split. cbn.
  match goal with
  | |- context [shlex.tokens v ?lx] =>
      destruct (tokens_single_quoted v lx Hv eq_refl) as [_ ->]
  end.
  reflexivity.
Qed.

Lemma rstrip_ends (s : string) (c : ascii) :
  isspace c = false ->
  rstrip (s ++ String c "") = (s ++ String c "")%string.
Proof.
  intros Hc. induction s as [|a s IH]; simpl; [now rewrite Hc|].
  rewrite IH. now destruct s.
Qed.

Lemma strip_single_quoted (v : string) :
  strip ("python script.py -p '" ++ v ++ "'")
  = ("python script.py -p '" ++ v ++ "'")%string.
Proof.
  unfold strip.
  change (lstrip ("python script.py -p '" ++ v ++ "'"))
    with ("python script.py -p '" ++ v ++ "'")%string.
  rewrite <- string_app_assoc. now apply rstrip_ends.
Qed.

Lemma while_running_shows_prompt
  (self : InteractiveCLI) (stdin : list stdin_item) :
  running self = true ->
  exists more, snd (while_running self stdin) = input_prompt (prompt self) :: more.
Proof.
  intros Hrun. destruct stdin as [|item rest].
  - rewrite (while_running_closed self Hrun).
    destruct (iteration_frame self EOFError) as ((out & -> & _) & _).
    now exists out.
  - rewrite (while_running_step self item rest Hrun). cbn [snd].
    destruct (iteration_frame self (read item)) as ((out & -> & _) & _).
    eexists. reflexivity.
Qed.

(** X10. A prompt typed between single quotes after [-p] is installed
    as it is, spaces, double quotes and backslashes included, provided it
    holds no single quote, is not empty and does not start with a dash;
    the change is announced, and the next prompt shown is the new one. *)
Theorem single_quoted_prompt_is_applied
  (self : InteractiveCLI) (v : string) (rest : list stdin_item) :
  no_single_quote v = true ->
  starts_with_dash v = false ->
  v <> "" ->
  let text := ("python script.py -p '" ++ v ++ "'")%string in
  let announced :=
    typewriter_effect (prompt_changed (prompt self) v) default_delay in
  handle_cli_args self text = (set_prompt v self, announced) /\
  (running self = true ->
   exists more,
     while_running self (line text :: rest) =
       (fst (while_running (set_prompt v self) rest),
        ([input_prompt (prompt self)] ++ echo_input text ++ announced)
        ++ input_prompt v :: more)).
Proof.
  intros Hquote Hdash Hne text announced.
  assert (Hhandle : handle_cli_args self text = (set_prompt v self, announced)).
  { unfold handle_cli_args, text. rewrite (split_single_quoted v Hquote).
    cbn [skipn]. destruct (parse_value v Hdash) as (-> & _).
    unfold dispatch. cbn [argparse.help argparse.version argparse.prompt].
    now rewrite (nonempty_true v Hne). }
  split; [exact Hhandle|]. intros Hrun.
  rewrite (while_running_step self (line text) rest Hrun). cbn [read].
  assert (Hstrip : strip text = text) by apply strip_single_quoted.
  rewrite (iteration_quoted self text) by (rewrite Hstrip; reflexivity).
  rewrite Hstrip, Hhandle. cbn [fst snd].
  destruct (while_running_shows_prompt (set_prompt v self) rest Hrun)
    as [more ->].
  now exists more.
Qed.

Lemma single_quoted_prompt_is_applied_witness :
  handle_cli_args (set_running true (__init__ "> " "1.0.0"))
                  "python script.py -p 'a \ b> '" =
    (set_prompt "a \ b> " (set_running true (__init__ "> " "1.0.0")),
     typewriter_effect (prompt_changed "> " "a \ b> ") default_delay) /\
  exists more,
    while_running (set_running true (__init__ "> " "1.0.0"))
                  [line "python script.py -p 'a \ b> '"; line "hi"] =
      (fst (while_running
              (set_prompt "a \ b> " (set_running true (__init__ "> " "1.0.0")))
              [line "hi"]),
       ([input_prompt "> "] ++ echo_input "python script.py -p 'a \ b> '"
        ++ typewriter_effect (prompt_changed "> " "a \ b> ") default_delay)
       ++ input_prompt "a \ b> " :: more).
Proof.
  destruct (single_quoted_prompt_is_applied
              (set_running true (__init__ "> " "1.0.0")) "a \ b> "
              [line "hi"] eq_refl eq_refl)
    as [Hhandle Hloop]; [discriminate|].
  split; [exact Hhandle | exact (Hloop eq_refl)].
Defined.

(** X11. A single quote that is opened after the invocation prefix and
    never closed makes the tokenizer fail, whatever follows it; the
    failure is caught, its message goes through the typewriter effect,
    and the session is unchanged. *)
Theorem unclosed_quote_is_reported (self : InteractiveCLI) (v : string) :
  no_single_quote v = true ->
  handle_cli_args self ("python script.py '" ++ v) =
    (self,
     typewriter_effect "Error parsing arguments: No closing quotation"
                       default_delay).
Proof.
  intros Hv. unfold handle_cli_args. now rewrite (split_unclosed v Hv).
Qed.

Lemma unclosed_quote_is_reported_witness :
  handle_cli_args (__init__ "> " "1.0.0") "python script.py '-h -v" =
    (__init__ "> " "1.0.0",
     typewriter_effect "Error parsing arguments: No closing quotation"
                       default_delay).
Proof.
  apply (unclosed_quote_is_reported (__init__ "> " "1.0.0") "-h -v").
  reflexivity.
Defined.

(** ** Arguments of the process *)

(** X12. Started with [-p VALUE] or [--prompt VALUE], the value not empty
    and not starting with a dash, the process prints the banner and then
    shows VALUE as its first prompt, with no announcement of a change,
    and exits with status 0. *)
Theorem startup_prompt_is_shown (v : string) (stdin : list stdin_item) :
  starts_with_dash v = false ->
  v <> "" ->
  exists more,
    main ["-p"; v] stdin
      = (banner (__init__ "> " "1.0.0") ++ input_prompt v :: more, 0%Z) /\
    main ["--prompt"; v] stdin
      = (banner (__init__ "> " "1.0.0") ++ input_prompt v :: more, 0%Z).
Proof.
  intros Hdash Hne. destruct (parse_value v Hdash) as (Hshort & Hlong & _).
  unfold main. rewrite Hshort, Hlong.
  cbn [argparse.help argparse.version]. unfold configure.
  cbn [argparse.prompt]. rewrite (nonempty_true v Hne). unfold start.
  destruct (while_running_shows_prompt
              (set_running true (set_prompt v (__init__ "> " "1.0.0")))
              stdin eq_refl) as [more Hmore].
  exists more.
  destruct (while_running _ stdin) as [self' out]. cbn [snd] in *.
  rewrite Hmore. now split.
Qed.

Lemma startup_prompt_is_shown_witness :
  exists more,
    main ["-p"; "** "] [line "hi"]
      = (banner (__init__ "> " "1.0.0") ++ input_prompt "** " :: more, 0%Z) /\
    main ["--prompt"; "** "] [line "hi"]
      = (banner (__init__ "> " "1.0.0") ++ input_prompt "** " :: more, 0%Z).
Proof.
  apply (startup_prompt_is_shown "** " [line "hi"]).
  - reflexivity.
  - discriminate.
Defined.

(** X13. The program takes no positional argument: started with a single
    argument that does not start with a dash, it writes the parser's
    report to the standard error stream, prints nothing else, reads no
    input, and exits with status 2. *)
Theorem positional_argument_is_fatal (v : string) (stdin : list stdin_item) :
  starts_with_dash v = false ->
  main [v] stdin
    = ([stderr_usage_error (argparse.unrecognized_arguments [v])], 2%Z).
Proof.
  intros Hdash. destruct (parse_value v Hdash) as (_ & _ & Hparse).
  unfold main. now rewrite Hparse.
Qed.

Lemma positional_argument_is_fatal_witness :
  main ["hello"] [line "hi"]
    = ([stderr_usage_error (argparse.unrecognized_arguments ["hello"])], 2%Z).
Proof.
  apply (positional_argument_is_fatal "hello" [line "hi"]). reflexivity.
Defined.

(** ** Tokens of a quoted invocation, and what the parser is given *)

(** Plain words, one space apart, then a space: the words are cut off and
    the tokenizer starts afresh on what follows. *)
Lemma tokens_plain_words_then (words : list string) (tail : string) :
  forallb plain words = true ->
  words <> [] ->
  shlex.tokens (String.concat " " words ++ " " ++ tail)
               (shlex.fresh shlex.st_space)
  = match shlex.tokens tail (shlex.fresh shlex.st_space) with
    | inl e => inl e
    | inr more => inr (words ++ more)
    end.
Proof.
  induction words as [|w words IH]; [congruence|].
  intros Hwords _. simpl in Hwords.
  apply andb_true_iff in Hwords as [Hw Hrest].
  unfold plain in Hw. apply andb_true_iff in Hw as [Hne Hw].
  destruct w as [|c w]; [discriminate|].
  simpl in Hw. apply andb_true_iff in Hw as [Hc Hw].
  assert (Hcut : forall rest,
             shlex.tokens (String c w ++ " " ++ rest)
                          (shlex.fresh shlex.st_space)
             = match shlex.tokens rest (shlex.fresh shlex.st_space) with
               | inl e => inl e
               | inr more => inr (String c w :: more)
               end).
  { intros rest. cbn [append]. rewrite (tokens_first_plain c _ Hc).
    rewrite tokens_plain by (assumption || reflexivity).
    cbn [shlex.tokens]. unfold shlex.on_char at 1.
    cbn [shlex.st shlex.token shlex.quoted].
    change (mem_char " " shlex.whitespace) with true.
    cbn [nonempty orb append]. reflexivity. }
  destruct words as [|w2 words].
  - cbn [String.concat]. rewrite Hcut. reflexivity.
  - change (String.concat " " (String c w :: w2 :: words))
      with (String c w ++ " " ++ String.concat " " (w2 :: words))%string.
    rewrite !string_app_assoc. rewrite Hcut.
    rewrite (IH Hrest) by discriminate.
    now destruct (shlex.tokens tail (shlex.fresh shlex.st_space)).
Qed.

Lemma no_double_quote_or_backslash_cons (c : ascii) (v : string) :
  no_double_quote_or_backslash (String c v) = true ->
  Ascii.eqb c "034" = false /\ mem_char c shlex.escape = false /\
  no_double_quote_or_backslash v = true.
Proof.
  intros H. unfold no_double_quote_or_backslash, mem_char in H.
  cbn [list_ascii_of_string existsb] in H.
  apply negb_true_iff, orb_false_iff in H as [Hquote Hescape].
  apply orb_false_iff in Hquote as [Hc Hv].
  apply orb_false_iff in Hescape as [Hc' Hv'].
  rewrite Ascii.eqb_sym in Hc. rewrite Ascii.eqb_sym in Hc'.
  split; [exact Hc|]. split.
  - unfold mem_char, shlex.escape. cbn [list_ascii_of_string existsb].
    now rewrite Hc'.
  - unfold no_double_quote_or_backslash, mem_char. now rewrite Hv, Hv'.
Qed.

(** Between double quotes a character that is neither a double quote nor
    a backslash is taken as it is, up to the closing quote. *)
Lemma tokens_double_quoted (v : string) :
  forall lx,
    no_double_quote_or_backslash v = true ->
    shlex.st lx = shlex.st_quote "034" ->
    shlex.tokens (v ++ double_quote) lx = inr [(shlex.token lx ++ v)%string].
Proof.
  induction v as [|c v IH]; intros lx Hv Hst.
  - unfold double_quote. cbn [append shlex.tokens].
    unfold shlex.on_char, shlex.on_eof. rewrite Hst. cbn.
    now rewrite string_app_nil_r.
  - apply no_double_quote_or_backslash_cons in Hv as (Hc & Hescape & Hv).
    cbn [append shlex.tokens]. unfold shlex.on_char at 1.
    rewrite Hst, Hc, Hescape. cbn [andb].
    rewrite IH by (assumption || reflexivity). cbn [shlex.token].
    now rewrite push_append.
Qed.

Lemma tokens_quoted_value (v : string) :
  (no_single_quote v = true ->
   shlex.tokens ("'" ++ v ++ "'") (shlex.fresh shlex.st_space) = inr [v]) /\
  (no_double_quote_or_backslash v = true ->
   shlex.tokens (double_quote ++ v ++ double_quote)
                (shlex.fresh shlex.st_space) = inr [v]).
Proof.
  split; intros Hv; unfold double_quote; cbn.
  - match goal with
    | |- context [shlex.tokens (v ++ "'") ?lx] =>
        destruct (tokens_single_quoted v lx Hv eq_refl) as [-> _]
    end.
    reflexivity.
  - match goal with
    | |- context [shlex.tokens (v ++ ?q) ?lx] =>
        change q with double_quote;
        rewrite (tokens_double_quoted v lx Hv eq_refl)
    end.
    reflexivity.
Qed.

(** C6, as the code has it. A quoted invocation is tokenized with
    shell-style quoting. When the tokenizer succeeds there are at least
    two tokens, [python] and one that starts with [script.py]; exactly
    these two are dropped and the tokens after them are what the flag
    parser is given. When it fails (a quote left open, a backslash at the
    end) the parser is given nothing and the tokenizer's message goes
    through the typewriter effect. The tokenizer does succeed, with the
    tokens one expects from a shell: plain words one space apart are the
    tokens, and a last value between single quotes, or between double
    quotes when it holds no backslash, is one token, the quotes taken
    off. *)
Theorem two_tokens_dropped (self : InteractiveCLI) (user_input : string) :
  quoted_invocation user_input ->
  (forall tokens,
     shlex.split user_input = inr tokens ->
     tokens = "python" :: hd "" (tl tokens) :: skipn 2 tokens /\
     startswith (hd "" (tl tokens)) "script.py" = true /\
     handle_cli_args self user_input =
       match argparse.parse_args (skipn 2 tokens) with
       | inl e => (self, [stderr_usage_error e])
       | inr args => dispatch self args
       end) /\
  (forall e,
     shlex.split user_input = inl e ->
     handle_cli_args self user_input =
       (self,
        typewriter_effect ("Error parsing arguments: " ++ shlex.str e)
                          default_delay)) /\
  (forall flags,
     forallb plain flags = true ->
     shlex.split (String.concat " " ("python" :: "script.py" :: flags))
     = inr ("python" :: "script.py" :: flags)) /\
  (forall flags v,
     forallb plain flags = true ->
     no_single_quote v = true ->
     shlex.split (String.concat " " ("python" :: "script.py" :: flags)
                  ++ " " ++ "'" ++ v ++ "'")
     = inr ("python" :: "script.py" :: flags ++ [v])) /\
  (forall flags v,
     forallb plain flags = true ->
     no_double_quote_or_backslash v = true ->
     shlex.split (String.concat " " ("python" :: "script.py" :: flags)
                  ++ " " ++ double_quote ++ v ++ double_quote)
     = inr ("python" :: "script.py" :: flags ++ [v])).
Proof.
  intros Hquoted. apply prefix_split in Hquoted as [rest ->].
  pose proof (split_invocation rest) as Hsplit. unfold handle_cli_args.
  split; [|split; [|split; [|split]]].
  - intros tokens Htokens. rewrite Htokens in Hsplit |- *.
    destruct Hsplit as (script & flags & -> & Hscript). now repeat split.
  - intros e He. now rewrite He.
  - intros flags Hflags. unfold shlex.split. now apply tokens_plain_words.
  - intros flags v Hflags Hv. unfold shlex.split.
    rewrite (tokens_plain_words_then ("python" :: "script.py" :: flags))
      by (exact Hflags || discriminate).
    rewrite (proj1 (tokens_quoted_value v) Hv). reflexivity.
  - intros flags v Hflags Hv. unfold shlex.split.
    rewrite (tokens_plain_words_then ("python" :: "script.py" :: flags))
      by (exact Hflags || discriminate).
    rewrite (proj2 (tokens_quoted_value v) Hv). reflexivity.
Qed.

Lemma two_tokens_dropped_witness :
  handle_cli_args (__init__ "> " "1.0.0") "python script.py -v 'a b'" =
    match argparse.parse_args ["-v"; "a b"] with
    | inl e => (__init__ "> " "1.0.0", [stderr_usage_error e])
    | inr args => dispatch (__init__ "> " "1.0.0") args
    end /\
  handle_cli_args (__init__ "> " "1.0.0") "python script.py -p 'x" =
    (__init__ "> " "1.0.0",
     typewriter_effect "Error parsing arguments: No closing quotation"
                       default_delay) /\
  shlex.split "python script.py -v 'a b'"
    = inr ["python"; "script.py"; "-v"; "a b"].
Proof.
  destruct (two_tokens_dropped (__init__ "> " "1.0.0")
                               "python script.py -v 'a b'" eq_refl)
    as (Hfed & _ & _ & Hsingle & _).
  destruct (two_tokens_dropped (__init__ "> " "1.0.0")
                               "python script.py -p 'x" eq_refl)
    as (_ & Hfails & _).
  split; [|split].
  - exact (proj2 (proj2 (Hfed ["python"; "script.py"; "-v"; "a b"] eq_refl))).
  - exact (Hfails shlex.No_closing_quotation eq_refl).
  - exact (Hsingle ["-v"] "a b" eq_refl eq_refl).
Defined.

(** C6, as stated, fails on [python script.py -p 'x]: the quote is left
    open, the tokenizer fails, and the flag parser is given nothing. *)
Lemma open_quote_reaches_no_parser :
  ~ every_invocation_reaches_parser (__init__ "> " "1.0.0")
      "python script.py -p 'x".
Proof.
  intros H. destruct (H eq_refl) as (tokens & Htokens & _).
  vm_compute in Htokens. discriminate.
Qed.
